(** * SokHub marketplace: inventory, orders, carts and the rule-based chat assistant

    A shallow embedding of the parts of the SokHub Django code base
    (product/models.py, SokHub/order/models.py, SokHub/AI_Assistant/views.py,
    SokHub/AI_Assistant/service.py, AI_Assistant/ai_service.py) that carry
    the stock reservation state machine, the cart clearing, the order save
    and payment paths, the chat views' exception handling, and the keyword
    based language and intent detection. *)

From Stdlib Require Import ZArith Lia Ascii String Sorted.
From stdpp Require Import base gmap strings list pretty.

(* ------------------------------------------------------------------ *)
(** ** product/models.py : Product inventory fields and stock methods *)
(* ------------------------------------------------------------------ *)

Module Inventory.
Local Open Scope Z_scope.

(** The database row of a [Product], restricted to the inventory fields
    that [reserve_stock], [release_stock] and [commit_stock] read or write.
    [last_restocked] is a timestamp ([None] is SQL NULL). *)
Record Product := mkProduct {
  quantity : Z;
  reservation_count : Z;
  purchase_count : Z;
  low_stock_threshold : Z;
  is_track_inventory : bool;
  allow_backorder : bool;
  last_restocked : option Z
}.

Definition set_reservation_count (p : Product) (r : Z) : Product :=
  mkProduct (quantity p) r (purchase_count p) (low_stock_threshold p)
            (is_track_inventory p) (allow_backorder p) (last_restocked p).

(** [get_available_quantity]: [max(0, self.quantity - self.reservation_count)]
    (the [try/except] cannot fire on integer fields). *)
Definition get_available_quantity (p : Product) : Z :=
  Z.max 0 (quantity p - reservation_count p).

(** [reserve_stock(quantity)].  The product row is locked with
    [select_for_update] and re-read, so the method works on the current row
    [p]; the in-memory [self.is_track_inventory] agrees with the row since no
    stock method writes that field.  The unused local [available_qty] is
    dropped; the guard calls [get_available_quantity()].  The update is
    [reservation_count = F('reservation_count') + quantity] with
    [update_fields=['reservation_count']], so no other column is written. *)
Definition reserve_stock (p : Product) (n : Z) : bool * Product :=
  if negb (is_track_inventory p) then (true, p)
  else if negb (allow_backorder p) && (get_available_quantity p <? n)
  then (false, p)
  else (true, set_reservation_count p (reservation_count p + n)).

(** [release_stock(quantity)]: [reservation_count = F('reservation_count') -
    quantity], with no lower bound. *)
Definition release_stock (p : Product) (n : Z) : Product :=
  if negb (is_track_inventory p) then p
  else set_reservation_count p (reservation_count p - n).

(** [commit_stock(quantity)]: one [UPDATE] with three [F] expressions, then
    [refresh_from_db()] and, when the new quantity is at most
    [low_stock_threshold], [last_restocked = timezone.now()] (the clock value
    is the argument [now]). *)
Definition commit_stock (now : Z) (p : Product) (n : Z) : Product :=
  if negb (is_track_inventory p) then p
  else
    let q' := quantity p - n in
    mkProduct q' (reservation_count p - n) (purchase_count p + n)
              (low_stock_threshold p) (is_track_inventory p) (allow_backorder p)
              (if q' <=? low_stock_threshold p then Some now else last_restocked p).

End Inventory.

(* ------------------------------------------------------------------ *)
(** ** Python exceptions and the outcome of a Python computation *)
(* ------------------------------------------------------------------ *)

Module Py.

(** The exception classes that the modelled code raises or may receive.
    The last three derive from [BaseException] only, not from [Exception]. *)
Inductive exc :=
  | AttributeError | KeyError | ValueError | TypeError
  | JSONDecodeError | UnicodeDecodeError
  | DoesNotExist | DatabaseError | IntegrityError
  | KeyboardInterrupt | SystemExit | GeneratorExit.

(** [isinstance(e, Exception)]. *)
Definition is_Exception (e : exc) : bool :=
  match e with
  | KeyboardInterrupt | SystemExit | GeneratorExit => false
  | _ => true
  end.

(** Outcome of a Python computation: a value, a raised exception, or a
    [while] loop that did not finish within the draws it was given. *)
Inductive outcome (A : Type) :=
  | Ok (a : A)
  | Raise (e : exc)
  | OutOfFuel.
Arguments Ok {A} a.
Arguments Raise {A} e.
Arguments OutOfFuel {A}.

Definition bind {A B} (m : outcome A) (k : A -> outcome B) : outcome B :=
  match m with
  | Ok a => k a
  | Raise e => Raise e
  | OutOfFuel => OutOfFuel
  end.

Notation "x <- m ;; k" := (bind m (fun x => k))
  (at level 100, m at next level, right associativity).

(** Truthiness of an optional string argument ([None] and [''] are false). *)
Definition truthy (s : option string) : bool :=
  match s with
  | Some t => negb (String.eqb t "")
  | None => false
  end.

End Py.

(* ------------------------------------------------------------------ *)
(** ** SokHub/order/models.py : Order, its two [save] methods, payment *)
(* ------------------------------------------------------------------ *)

Module Orders.
Import Py Inventory.
Local Open Scope Z_scope.

(** The fields of an [Order] row used by [save] and [mark_as_paid];
    timestamps are [option Z] ([None] is SQL NULL), [pk] is [None] until
    the first insert. *)
Record Order := mkOrder {
  pk : option Z;
  order_number : string;
  short_code : string;
  invoice_number : string;
  status : string;
  status_changed_at : option Z;
  payment_status : string;
  payment_date : option Z;
  momo_number : option string;
  momo_transaction_id : option string;
  updated_at : option Z
}.

Definition set_order_number (o : Order) (n : string) : Order :=
  mkOrder (pk o) n (short_code o) (invoice_number o) (status o)
    (status_changed_at o) (payment_status o) (payment_date o)
    (momo_number o) (momo_transaction_id o) (updated_at o).

(** The environment of a save: the clock, the order numbers already in the
    table, the [uuid4] draws feeding [generate_order_number] (draw [k] is the
    [k]-th call), the primary key the database assigns on insert, and the
    status stored in the row (read by [Order.objects.get(pk=...)]). *)
Record SaveEnv := mkSaveEnv {
  env_now : Z;
  existing_numbers : list string;
  gen_draw : nat -> string;
  next_pk : Z;
  stored_status : string
}.

(** Django's [Model.save] for the fields above: an insert assigns [pk] and
    fills the [auto_now_add] field [status_changed_at]; every save sets the
    [auto_now] field [updated_at]. *)
Definition model_save (env : SaveEnv) (o : Order) : Order :=
  match pk o with
  | None =>
      mkOrder (Some (next_pk env)) (order_number o) (short_code o)
        (invoice_number o) (status o) (Some (env_now env)) (payment_status o)
        (payment_date o) (momo_number o) (momo_transaction_id o)
        (Some (env_now env))
  | Some k =>
      mkOrder (Some k) (order_number o) (short_code o) (invoice_number o)
        (status o) (status_changed_at o) (payment_status o) (payment_date o)
        (momo_number o) (momo_transaction_id o) (Some (env_now env))
  end.

(** Python's [s[-8:]]. *)
Definition last8 (s : string) : string :=
  String.substring (String.length s - 8) 8 s.

(** First [def save] of the class body (lines 116-129). *)
Definition save_v1 (env : SaveEnv) (o : Order) : outcome Order :=
  let o1 :=
    if String.eqb (order_number o) "" then
      let n := gen_draw env 0 in
      mkOrder (pk o) n (last8 n) ("INV-" ++ n) (status o)
        (status_changed_at o) (payment_status o) (payment_date o)
        (momo_number o) (momo_transaction_id o) (updated_at o)
    else o in
  let o2 :=
    match pk o1 with
    | Some _ =>
        if negb (String.eqb (stored_status env) (status o1)) then
          mkOrder (pk o1) (order_number o1) (short_code o1) (invoice_number o1)
            (status o1) (Some (env_now env)) (payment_status o1)
            (payment_date o1) (momo_number o1) (momo_transaction_id o1)
            (updated_at o1)
        else o1
    | None => o1
    end in
  Ok (model_save env o2).

(** The uniqueness loop of the second [save]:
    [while Order.objects.filter(order_number=...).exists(): regenerate],
    given [fuel] iterations and the index [k] of the next draw. *)
Fixpoint regenerate_until_unique (env : SaveEnv) (fuel k : nat) (o : Order)
  : outcome Order :=
  if existsb (String.eqb (order_number o)) (existing_numbers env) then
    match fuel with
    | O => OutOfFuel
    | S f => regenerate_until_unique env f (S k)
               (set_order_number o (gen_draw env k))
    end
  else Ok o.

(** Second [def save] of the class body (lines 361-371). *)
Definition save_v2 (env : SaveEnv) (fuel : nat) (o : Order) : outcome Order :=
  let '(o1, k) :=
    if String.eqb (order_number o) "" then
      (set_order_number o (gen_draw env 0), 1%nat)
    else (o, 0%nat) in
  o2 <- (match pk o1 with
         | None => regenerate_until_unique env fuel k o1
         | Some _ => Ok o1
         end) ;;
  Ok (model_save env o2).

(** The attributes bound in the [class Order] body, in source order; the
    two [save] and two [generate_order_number] definitions both appear. *)
Inductive OrderAttr :=
  | A_str | A_save_v1 | A_generate_v1 | A_calculate_totals | A_urls
  | A_generate_invoice_pdf | A_can_be_cancelled | A_request_deletion
  | A_approve_deletion | A_mark_as_paid | A_save_v2 | A_generate_v2.

Definition Order_class_body : list (string * OrderAttr) :=
  [("__str__", A_str); ("save", A_save_v1);
   ("generate_order_number", A_generate_v1);
   ("calculate_totals", A_calculate_totals);
   ("get_absolute_url", A_urls); ("get_customer_dashboard_url", A_urls);
   ("get_vendor_dashboard_url", A_urls);
   ("generate_invoice_pdf", A_generate_invoice_pdf);
   ("can_be_cancelled", A_can_be_cancelled);
   ("request_deletion", A_request_deletion);
   ("approve_deletion", A_approve_deletion);
   ("mark_as_paid", A_mark_as_paid); ("save", A_save_v2);
   ("generate_order_number", A_generate_v2)].

(** Executing a class body binds each name in the class namespace in
    order, so a later [def] of the same name overwrites the earlier one. *)
Definition class_namespace (body : list (string * OrderAttr)) : gmap string OrderAttr :=
  fold_left (fun ns '(name, a) => <[name := a]> ns) body ∅.

(** [order.save()]: the method bound to [save] in the class namespace. *)
Definition Order_save (env : SaveEnv) (fuel : nat) (o : Order) : outcome Order :=
  match class_namespace Order_class_body !! "save" with
  | Some A_save_v1 => save_v1 env o
  | Some A_save_v2 => save_v2 env fuel o
  | _ => Raise AttributeError
  end.

(** An [OrderItem] row: product primary key, quantity, cancellation flag. *)
Record OrderItem := mkOrderItem {
  item_product : Z;
  item_quantity : Z;
  is_cancelled : bool
}.

(** [OrderItem.commit_stock()]: [self.product] is loaded from the products
    table (a missing row raises [DoesNotExist]); when it tracks inventory
    and the item is not cancelled, [Product.commit_stock] runs on it. *)
Definition OrderItem_commit_stock (now : Z) (products : gmap Z Product)
    (it : OrderItem) : outcome (gmap Z Product) :=
  match products !! item_product it with
  | None => Raise DoesNotExist
  | Some p =>
      if is_track_inventory p && negb (is_cancelled it)
      then Ok (<[item_product it := commit_stock now p (item_quantity it)]> products)
      else Ok products
  end.

(** [for item in self.items.all(): item.commit_stock()]. *)
Fixpoint commit_items (now : Z) (products : gmap Z Product) (items : list OrderItem)
  : outcome (gmap Z Product) :=
  match items with
  | [] => Ok products
  | it :: rest =>
      products' <- OrderItem_commit_stock now products it ;;
      commit_items now products' rest
  end.

(** [Order.mark_as_paid(momo_number, transaction_id)]. *)
Definition mark_as_paid (env : SaveEnv) (fuel : nat) (o : Order)
    (items : list OrderItem) (products : gmap Z Product)
    (momo : option string) (txid : option string)
  : outcome (Order * gmap Z Product) :=
  let o1 :=
    mkOrder (pk o) (order_number o) (short_code o) (invoice_number o)
      "confirmed" (status_changed_at o) "completed" (Some (env_now env))
      (if truthy momo then momo else momo_number o)
      (if truthy txid then txid else momo_transaction_id o)
      (updated_at o) in
  o2 <- Order_save env fuel o1 ;;
  products' <- commit_items (env_now env) products items ;;
  Ok (o2, products').

(** Units of product [pid] that [mark_as_paid] commits: the quantities of
    the order's non-cancelled items on that product. *)
Definition committed_units (items : list OrderItem) (pid : Z) : Z :=
  fold_right (fun it acc =>
    if (item_product it =? pid) && negb (is_cancelled it)
    then item_quantity it + acc else acc) 0 items.

End Orders.

(* ------------------------------------------------------------------ *)
(** ** SokHub/order/models.py : Cart, CartItem and [Cart.clear] *)
(* ------------------------------------------------------------------ *)

Module Carts.
Import Py Inventory.
Local Open Scope Z_scope.

(** A [CartItem] row. *)
Record CartItem := mkCartItem {
  ci_pk : Z;
  ci_cart : Z;
  ci_product : Z;
  ci_quantity : Z
}.

(** The tables touched by cart operations. *)
Record DB := mkDB {
  cart_items : list CartItem;
  products : gmap Z Product
}.

(** A computation over the database that may raise: the state monad
    over [DB] with Python outcomes. *)
Definition St (A : Type) := DB -> outcome A * DB.

Definition st_ret {A} (a : A) : St A := fun db => (Ok a, db).
Definition st_raise {A} (e : exc) : St A := fun db => (Raise e, db).
Definition st_bind {A B} (m : St A) (k : A -> St B) : St B :=
  fun db =>
    match m db with
    | (Ok a, db') => k a db'
    | (Raise e, db') => (Raise e, db')
    | (OutOfFuel, db') => (OutOfFuel, db')
    end.

Notation "x <-- m ;;; k" := (st_bind m (fun x => k))
  (at level 100, m at next level, right associativity).

(** [with transaction.atomic():]: an exception escaping the block rolls
    the database back to its state on entry and propagates. *)
Definition atomic {A} (m : St A) : St A :=
  fun db =>
    match m db with
    | (Raise e, _) => (Raise e, db)
    | r => r
    end.

(** Attributes reachable on a [CartItem] instance: its fields, the methods
    of the [CartItem] class body, and those of [django.db.models.Model]. *)
Inductive CartItemAttr :=
  | F_field
  | M_str | M_save | M_get_total_price | M_delete | M_get_total | M_can_be_added
  | M_model_method.

Definition CartItem_instance_fields : list string :=
  ["id"; "pk"; "cart"; "cart_id"; "product"; "product_id"; "quantity"; "added_at"].

Definition CartItem_class_body : list (string * CartItemAttr) :=
  [("__str__", M_str); ("save", M_save); ("get_total_price", M_get_total_price);
   ("delete", M_delete); ("get_total", M_get_total); ("can_be_added", M_can_be_added)].

Definition Model_methods : list string :=
  ["save"; "delete"; "save_base"; "full_clean"; "clean"; "clean_fields";
   "validate_unique"; "validate_constraints"; "refresh_from_db";
   "get_deferred_fields"; "serializable_value"; "from_db";
   "prepare_database_save"; "get_constraints"; "check"; "__str__";
   "__eq__"; "__hash__"; "__reduce__"; "__repr__"; "__init__"].

(** [getattr(item, name)]: instance dictionary, then the class, then the
    base class. *)
Definition CartItem_getattr (name : string) : option CartItemAttr :=
  if existsb (String.eqb name) CartItem_instance_fields then Some F_field
  else match list_to_map (M := gmap string CartItemAttr) CartItem_class_body !! name with
       | Some a => Some a
       | None => if existsb (String.eqb name) Model_methods
                 then Some M_model_method else None
       end.

(** [CartItem.delete()]: release the reservation on the product when it
    tracks inventory, then delete the row. *)
Definition CartItem_delete (it : CartItem) : St unit :=
  fun db =>
    match products db !! ci_product it with
    | None => (Raise DoesNotExist, db)
    | Some p =>
        let prods := if is_track_inventory p
                     then <[ci_product it := release_stock p (ci_quantity it)]> (products db)
                     else products db in
        (Ok tt, mkDB (filter (fun x => negb (ci_pk x =? ci_pk it)) (cart_items db)) prods)
    end.

(** Calling [item.<name>()] with no arguments: a missing attribute raises
    [AttributeError]; a field is an [int] or a model instance, which is not
    callable ([TypeError]); [delete] runs; the read-only methods return
    without touching the database. *)
Definition call_method (it : CartItem) (name : string) : St unit :=
  match CartItem_getattr name with
  | None => st_raise AttributeError
  | Some F_field => st_raise TypeError
  | Some M_delete => CartItem_delete it
  | Some _ => st_ret tt
  end.

(** [self.items.all()]. *)
Definition items_of (cart : Z) (db : DB) : list CartItem :=
  filter (fun it => ci_cart it =? cart) (cart_items db).

Fixpoint clear_loop (items : list CartItem) : St unit :=
  match items with
  | [] => st_ret tt
  | it :: rest =>
      _ <-- call_method it "release_stock" ;;;
      _ <-- call_method it "delete" ;;;
      clear_loop rest
  end.

(** [Cart.clear()]. *)
Definition Cart_clear (cart : Z) : St unit :=
  atomic (fun db => clear_loop (items_of cart db) db).

End Carts.

(* ------------------------------------------------------------------ *)
(** ** Python string primitives *)
(* ------------------------------------------------------------------ *)

Module PyStr.

(** [needle in hay]. *)
Fixpoint contains (needle hay : string) : bool :=
  String.prefix needle hay ||
  match hay with
  | EmptyString => false
  | String _ rest => contains needle rest
  end.

(** [s.startswith(p)]. *)
Definition startswith (s p : string) : bool := String.prefix p s.

(** [str.lower] restricted to ASCII: upper-case letters are shifted, every
    other character is kept.  The models below are stated for an arbitrary
    lower-casing function; this one is used to run them. *)
Definition ascii_lower_char (c : ascii) : ascii :=
  let n := Ascii.nat_of_ascii c in
  if (65 <=? n)%nat && (n <=? 90)%nat then Ascii.ascii_of_nat (n + 32) else c.

Fixpoint ascii_lower (s : string) : string :=
  match s with
  | EmptyString => EmptyString
  | String c rest => String (ascii_lower_char c) (ascii_lower rest)
  end.

(** The characters [str.strip()] removes in ASCII text. *)
Definition is_py_space (c : ascii) : bool :=
  let n := Ascii.nat_of_ascii c in
  (n =? 32)%nat || ((9 <=? n)%nat && (n <=? 13)%nat).

Fixpoint drop_spaces (l : list ascii) : list ascii :=
  match l with
  | [] => []
  | c :: rest => if is_py_space c then drop_spaces rest else l
  end.

(** [s.strip()]. *)
Definition strip (s : string) : string :=
  string_of_list_ascii
    (rev (drop_spaces (rev (drop_spaces (list_ascii_of_string s))))).

(** [s.replace(pat, "")] for a non-empty [pat]: occurrences are removed
    left to right without overlap; [fuel] bounds the scan. *)
Fixpoint remove_occurrences (fuel : nat) (pat s : string) : string :=
  match fuel with
  | O => s
  | S f =>
      match s with
      | EmptyString => EmptyString
      | String c rest =>
          if negb (String.eqb pat "") && String.prefix pat s
          then remove_occurrences f pat
                 (String.substring (String.length pat)
                    (String.length s - String.length pat) s)
          else String c (remove_occurrences f pat rest)
      end
  end.

Definition replace_with_empty (s pat : string) : string :=
  remove_occurrences (String.length s) pat s.

End PyStr.

(* ------------------------------------------------------------------ *)
(** ** Language detection: SokHub/AI_Assistant/service.py and
       AI_Assistant/ai_service.py *)
(* ------------------------------------------------------------------ *)

Module Lang.
Import PyStr.

(** ["s'il vous plaît"], with the UTF-8 bytes of the accented letter. *)
Definition sil_vous_plait : string :=
  "s'il vous pla" ++ String (Ascii.ascii_of_nat 195)
                      (String (Ascii.ascii_of_nat 174) "t").

(** Keyword lists of [AIService.detect_language] in service.py. *)
Definition service_rw_words : list string :=
  ["muraho"; "bite"; "mwiriwe"; "amafaranga"; "ubucuruzi"].
Definition service_fr_words : list string :=
  ["bonjour"; "merci"; sil_vous_plait; "produit"; "prix"].
Definition service_sw_words : list string :=
  ["habari"; "asante"; "tafadhali"; "bidhaa"; "bei"].

(** Keyword sets of [AIService] in ai_service.py (iteration order of a set
    does not matter: every keyword of one set yields the same code). *)
Definition ai_french_keywords : list string :=
  ["bonjour"; "merci"; "s'il"; "svp"; "au revoir"; "salut"; "monsieur";
   "madame"; "comment"].
Definition ai_rw_keywords : list string :=
  ["muraho"; "amakuru"; "mwiriwe"; "mwaramutse"; "urakoze"; "ndabona";
   "bite"; "neza"].
Definition ai_sw_keywords : list string :=
  ["jambo"; "habari"; "asante"; "kwaheri"; "shikamoo"; "mambo"; "poa";
   "karibu"].

Definition any_in (words : list string) (text : string) : bool :=
  existsb (fun w => contains w text) words.

Section Detect.
Variable lower : string -> string.

(** [AIService.detect_language] of service.py: Kinyarwanda, then French,
    then Swahili, default English. *)
Definition detect_language (text : string) : string :=
  let text_lower := lower text in
  if any_in service_rw_words text_lower then "rw"
  else if any_in service_fr_words text_lower then "fr"
  else if any_in service_sw_words text_lower then "sw"
  else "en".

(** [AIService.detect_language] of ai_service.py: empty text is English;
    then French, Kinyarwanda, Swahili, default English. *)
Definition detect_language_ai (text : string) : string :=
  if String.eqb text "" then "en"
  else
    let low := lower text in
    if any_in ai_french_keywords low then "fr"
    else if any_in ai_rw_keywords low then "rw"
    else if any_in ai_sw_keywords low then "sw"
    else "en".

End Detect.
End Lang.

(* ------------------------------------------------------------------ *)
(** ** SokHub/AI_Assistant/service.py : EnhancedAIService.process_chat_message *)
(* ------------------------------------------------------------------ *)

Module Chat.
Import PyStr Lang.
Local Open Scope Z_scope.

Definition INAPPROPRIATE_KEYWORDS : list string :=
  ["porn"; "pornography"; "xxx"; "adult"; "sex"; "nude"; "naked";
   "violence"; "kill"; "murder"; "drug"; "weed"; "cocaine"; "heroin";
   "hate"; "racist"; "terror"; "illegal"; "scam"; "fraud"].

Definition BUSINESS_KEYWORDS : list string :=
  ["buy"; "sell"; "product"; "price"; "cost"; "order"; "delivery";
   "shop"; "store"; "market"; "business"; "sales"; "revenue";
   "customer"; "vendor"; "payment"; "shipping"; "stock"; "inventory"].

(** [AIService.GREETINGS.get(language, GREETINGS['en'])]. *)
Definition GREETINGS (language : string) : list string :=
  if String.eqb language "fr" then ["bonjour"; "salut"; "coucou"; "bonsoir"]
  else if String.eqb language "rw" then ["muraho"; "bite"; "mwiriwe"; "muramuke"]
  else if String.eqb language "sw" then ["habari"; "jambo"; "hujambo"; "salamu"]
  else ["hi"; "hello"; "hey"; "greetings"; "good morning"; "good evening";
        "good afternoon"; "howdy"].

(** One entry of [EnhancedAIService.conversation_context]; assistant
    replies are recorded in [history] by the name of their template. *)
Record ChatCtx := mkChatCtx {
  history : list (string * string);
  last_intent : option string;
  vendor_mentioned : option string;
  product_interest : option string
}.

Definition empty_ctx : ChatCtx := mkChatCtx [] None None None.

Definition push_history (c : ChatCtx) (entry : string * string) : ChatCtx :=
  mkChatCtx (history c ++ [entry]) (last_intent c) (vendor_mentioned c)
            (product_interest c).

Definition set_last_intent (c : ChatCtx) (i : string) : ChatCtx :=
  mkChatCtx (history c) (Some i) (vendor_mentioned c) (product_interest c).

(** The two class-level dictionaries of [EnhancedAIService]. *)
Record ChatState := mkChatState {
  conversation_context : gmap string ChatCtx;
  off_topic_count : gmap string Z
}.

(** The returned dictionary, restricted to ['intent'] and the language in
    ['metadata']. *)
Record ChatResult := mkChatResult {
  intent : string;
  language : string
}.

Section Process.
(** [str.lower]. *)
Variable lower : string -> string.
(** [re.split(r'\b(from|by|vendor)\b', s)]. *)
Variable re_split_vendor : string -> list string.
(** The number of products [AIClientService.find_products_by_wish(query,
    vendor_filter=..., max_results=8)] returns. *)
Variable find_products : string -> option string -> nat.
(** [User.objects.get(id=user_id)]: the [user_type] of that user, [None]
    when it does not exist. *)
Variable lookup_user : Z -> option string.

(** [AIService.check_inappropriate_content(text)]: the first keyword found. *)
Definition check_inappropriate_content (text : string) : option string :=
  let text_lower := lower text in
  find (fun k => contains k text_lower) INAPPROPRIATE_KEYWORDS.

(** [AIService.is_business_related(text)]. *)
Definition is_business_related (text : string) : bool :=
  let text_lower := lower text in
  any_in BUSINESS_KEYWORDS text_lower ||
  any_in ["hi"; "hello"; "hey"; "how are you"; "good morning"; "good evening"] text_lower ||
  any_in ["sokhub"; "soko"; "market"; "shop"; "store"; "buy"; "sell"] text_lower.

Definition finish (sid : string) (st : ChatState) (ctx : ChatCtx)
    (otc : gmap string Z) (i lang : string) : ChatResult * ChatState :=
  (mkChatResult i lang,
   mkChatState (<[sid := push_history ctx ("assistant", i)]> (conversation_context st)) otc).

(** [_handle_vendor_query]: the intent is fixed by the first keyword group
    found; report, order and stock calls only shape the reply text. *)
Definition handle_vendor_query (message : string) (ctx : ChatCtx)
    : string * ChatCtx :=
  let msg_lower := lower message in
  if any_in ["report"; "sales"; "revenue"; "earning"; "performance"; "stats";
             "analytics"; "how is my business"; "my shop"] msg_lower
  then ("business_report", set_last_intent ctx "business_report")
  else if any_in ["order"; "complete"; "confirm"; "ship"; "deliver"; "cancel";
                  "update"; "status"] msg_lower
  then ("order_update", set_last_intent ctx "order_update")
  else if any_in ["stock"; "inventory"; "low stock"; "restock"] msg_lower
  then ("stock_query", set_last_intent ctx "stock_query")
  else ("vendor_assistance", set_last_intent ctx "vendor_assistance").

Definition remove_phrases : list string :=
  ["product"; "buy"; "looking for"; "find"; "search"; "get"; "show me"; "show";
   "want"; "what is"; "what are"; "do you have"; "need"; "price of";
   "how much is"; "cost of"; "is there"; "can you find"; "from"; "by";
   "vendor"; "please"].

(** [_handle_client_query]. *)
Definition handle_client_query (message : string) (ctx : ChatCtx)
    : string * ChatCtx :=
  let msg_lower := lower message in
  let '(vendor_name, ctx1) :=
    if contains "from" msg_lower || contains "by" msg_lower || contains "vendor" msg_lower
    then
      let parts := re_split_vendor msg_lower in
      if (2 <? List.length parts)%nat then
        let potential_vendor := strip (List.last parts "") in
        if (1 <? String.length potential_vendor)%nat &&
           negb (existsb (String.eqb potential_vendor) ["sokhub"; "market"; "store"])
        then (Some potential_vendor,
              mkChatCtx (history ctx) (last_intent ctx) (Some potential_vendor)
                        (product_interest ctx))
        else (None, ctx)
      else (None, ctx)
    else (None, ctx) in
  let query := strip (fold_left replace_with_empty remove_phrases msg_lower) in
  if any_in ["contact"; "phone"; "email"; "address"; "reach"; "call"] msg_lower
  then ("vendor_contact", set_last_intent ctx1 "vendor_contact")
  else
    let should_search :=
      (2 <=? String.length query)%nat || bool_decide (is_Some vendor_name) ||
      (match last_intent ctx1 with
       | Some i => existsb (String.eqb i) ["shopping"; "product_search"]
       | None => false
       end) in
    let ctx2 :=
      if should_search then
        let vendor_filter :=
          match vendor_name with
          | Some v => Some v
          | None => vendor_mentioned ctx1
          end in
        if (0 <? find_products query vendor_filter)%nat
        then mkChatCtx (history ctx1) (Some "shopping") (vendor_mentioned ctx1)
                       (Some query)
        else set_last_intent ctx1 "no_results"
      else set_last_intent ctx1 "general_assistance" in
    (match last_intent ctx2 with Some i => i | None => "" end, ctx2).

(** [f"{user_id if user else 'guest'}_{language}"]. *)
Definition session_id (user : option string) (user_id : option Z) (lang : string) : string :=
  match user with
  | None => "guest"
  | Some _ => match user_id with Some k => pretty k | None => "None" end
  end ++ "_" ++ lang.

(** [EnhancedAIService.process_chat_message(message, user, user_id)]; a
    user is represented by its [user_type]. *)
Definition process_chat_message (message : string) (user : option string)
    (user_id : option Z) (st : ChatState) : ChatResult * ChatState :=
  let user :=
    match user with
    | Some u => Some u
    | None =>
        match user_id with
        | Some k => if Z.eqb k 0 then None else lookup_user k
        | None => None
        end
    end in
  let user_type := match user with Some t => t | None => "guest" end in
  let msg_lower := strip (lower message) in
  let lang := detect_language lower message in
  let sid := session_id user user_id lang in
  let ctx0 := match conversation_context st !! sid with
              | Some c => c
              | None => empty_ctx
              end in
  let ctx := push_history ctx0 ("user", message) in
  let st := mkChatState (<[sid := ctx]> (conversation_context st)) (off_topic_count st) in
  match check_inappropriate_content message with
  | Some _ => finish sid st ctx (off_topic_count st) "inappropriate_content" lang
  | None =>
      let is_business := is_business_related message in
      let otc := off_topic_count st in
      let count := match otc !! sid with Some n => n | None => 0 end + 1 in
      if negb is_business && (3 <=? count)
      then finish sid st ctx (<[sid := 0]> otc) "redirect_to_business" lang
      else
        let otc :=
          if negb is_business then <[sid := count]> otc
          else if bool_decide (is_Some (otc !! sid)) then <[sid := 0]> otc
          else otc in
        if existsb (fun g => startswith msg_lower g || String.eqb msg_lower g)
                   (GREETINGS lang)
        then finish sid st (set_last_intent ctx "greeting") otc "greeting" lang
        else if any_in ["sokhub"; "what is"; "about sokhub"; "how does sokhub work"]
                       msg_lower
        then finish sid st (set_last_intent ctx "platform_info") otc "platform_info" lang
        else
          let reply :=
            if String.eqb user_type "vendor"
            then handle_vendor_query message ctx
            else handle_client_query message ctx in
          finish sid st (snd reply) otc (fst reply) lang
  end.

End Process.
End Chat.

(* ------------------------------------------------------------------ *)
(** ** SokHub/AI_Assistant/views.py : ai_simple_chat and chat_start *)
(* ------------------------------------------------------------------ *)

Module Views.
Import Py PyStr.
Local Open Scope Z_scope.

(** JSON values of the response bodies; lists and dictionaries built from
    request or session data are kept opaque. *)
Inductive JVal :=
  | JBool (b : bool)
  | JStr (s : string)
  | JData (tag : string).

(** A [JsonResponse]: HTTP status and top-level keys. *)
Record JsonResponse := mkJsonResponse {
  status_code : Z;
  body : list (string * JVal)
}.

(** [try: ... except Exception as e: handler(e)]: exceptions that are not
    instances of [Exception] propagate. *)
Definition try_except_Exception {A} (m : outcome A) (handler : exc -> outcome A)
  : outcome A :=
  match m with
  | Raise e => if is_Exception e then handler e else Raise e
  | r => r
  end.

(** [try: ... except: ...] (bare): every exception is caught. *)
Definition try_except_all {A} (m : outcome A) (handler : exc -> outcome A)
  : outcome A :=
  match m with
  | Raise e => handler e
  | r => r
  end.

(** [str(e)]. *)
Definition exc_str (e : exc) : string :=
  match e with
  | AttributeError => "AttributeError" | KeyError => "KeyError"
  | ValueError => "ValueError" | TypeError => "TypeError"
  | JSONDecodeError => "JSONDecodeError" | UnicodeDecodeError => "UnicodeDecodeError"
  | DoesNotExist => "DoesNotExist" | DatabaseError => "DatabaseError"
  | IntegrityError => "IntegrityError" | KeyboardInterrupt => "KeyboardInterrupt"
  | SystemExit => "SystemExit" | GeneratorExit => "GeneratorExit"
  end.

(** What the views obtain from the request and the services; each access
    may raise. *)
Record Request := mkRequest {
  rq_method : outcome string;                     (* request.method *)
  rq_json : outcome unit;                         (* json.loads(request.body.decode('utf-8')) *)
  rq_message : outcome string;                    (* data.get('message', data.get('query', '')).strip() *)
  rq_context : outcome unit;                      (* data.get('context', {}) *)
  rq_username : outcome string;                   (* request.user.username if authenticated else 'there' *)
  rq_user : outcome (option string);              (* request.user if authenticated else None *)
  rq_now : outcome string;                        (* datetime.now() formatting *)
  rq_create_session : outcome string;             (* chat_service.create_chat_session(user, context) *)
  rq_history : outcome unit;                      (* chat_service.get_conversation_history(session) *)
  has_chat_service : bool;                        (* HAS_CHAT_SERVICE and HAS_CHAT_MODELS *)
  lower : string -> string                        (* str.lower *)
}.

Definition simple_reply (resp intent : string) : outcome JsonResponse :=
  Ok (mkJsonResponse 200 [("success", JBool true); ("response", JStr resp);
                          ("intent", JStr intent)]).

Definition error_reply (code : Z) (err resp : string) : outcome JsonResponse :=
  Ok (mkJsonResponse code [("success", JBool false); ("error", JStr err);
                           ("response", JStr resp)]).

(** The [greetings] dictionary of [ai_simple_chat], in insertion order,
    mapped to the name of its reply. *)
Definition simple_greetings : list (string * string) :=
  [("hi", "greet_hi"); ("hello", "greet_hello"); ("bonjour", "greet_bonjour");
   ("bjr", "greet_bjr"); ("muraho", "greet_muraho"); ("habari", "greet_habari");
   ("hey", "greet_hey")].

Definition ai_simple_chat_body (rq : Request) : outcome JsonResponse :=
  m <- rq_method rq ;;
  if negb (String.eqb m "POST") then
    error_reply 405 "Method not allowed" "Please use POST method"
  else
  match try_except_all (rq_json rq) (fun _ => Raise ValueError) with
  | Raise _ => error_reply 400 "Invalid JSON" "Please send valid JSON"
  | OutOfFuel => OutOfFuel
  | Ok _ =>
      message <- rq_message rq ;;
      if String.eqb message "" then
        error_reply 400 "Empty message" "Please provide a message"
      else
        let msg_lower := lower rq message in
        match find (fun kv => String.eqb (fst kv) msg_lower) simple_greetings with
        | Some (_, r) => simple_reply r "greeting"
        | None =>
          match find (fun kv => contains (fst kv) msg_lower) simple_greetings with
          | Some (_, r) => simple_reply r "greeting"
          | None =>
            if contains "sokhub" msg_lower then simple_reply "platform" "platform_info"
            else if existsb (fun w => contains w msg_lower)
                   ["product"; "buy"; "price"; "cost"; "shop"; "store"; "item"; "thing"]
            then simple_reply "product_search" "shopping"
            else if existsb (fun w => contains w msg_lower)
                   ["vendor"; "sell"; "business"; "report"; "sales"]
            then simple_reply "vendor_support" "vendor_support"
            else
              username <- rq_username rq ;;
              simple_reply ("default:" ++ username) "general"
          end
        end
  end.

(** The handler of [ai_simple_chat] (lines 137-144); [print] and
    [traceback.print_exc()] only write to the console. *)
Definition ai_simple_chat_handler (e : exc) : outcome JsonResponse :=
  simple_reply "fallback_greeting" "greeting".

Definition ai_simple_chat (rq : Request) : outcome JsonResponse :=
  try_except_Exception (ai_simple_chat_body rq) ai_simple_chat_handler.

Definition session_reply (sid : string) (ctx : string) : outcome JsonResponse :=
  Ok (mkJsonResponse 200 [("success", JBool true); ("session_id", JStr sid);
                          ("messages", JData "messages"); ("context", JData ctx)]).

Definition chat_start_body (rq : Request) : outcome JsonResponse :=
  m <- rq_method rq ;;
  if negb (String.eqb m "POST") then
    error_reply 405 "Method not allowed" "Please use POST method"
  else
  let context := match try_except_all (rq_context rq) (fun _ => Ok tt) with
                 | Ok _ => "request_context"
                 | _ => "{}"
                 end in
  user <- rq_user rq ;;
  if negb (has_chat_service rq) then
    now <- rq_now rq ;;
    session_reply ("simple_" ++ now) context
  else
    try_except_Exception
      (sid <- rq_create_session rq ;;
       _ <- rq_history rq ;;
       session_reply sid "session_context")
      (fun _ => now <- rq_now rq ;; session_reply ("fallback_" ++ now) context).

(** The outermost handler of [chat_start] (lines 206-213). *)
Definition chat_start_handler (e : exc) : outcome JsonResponse :=
  error_reply 500 (exc_str e) "Failed to start chat session".

Definition chat_start (rq : Request) : outcome JsonResponse :=
  try_except_Exception (chat_start_body rq) chat_start_handler.

(** An access that either succeeds or raises an instance of [Exception]. *)
Definition ok_or_Exception {A} (o : outcome A) : Prop :=
  match o with
  | Ok _ => True
  | Raise e => is_Exception e = true
  | OutOfFuel => False
  end.

Definition request_raises_only_Exception (rq : Request) : Prop :=
  ok_or_Exception (rq_method rq) /\ ok_or_Exception (rq_json rq) /\
  ok_or_Exception (rq_message rq) /\ ok_or_Exception (rq_context rq) /\
  ok_or_Exception (rq_username rq) /\ ok_or_Exception (rq_user rq) /\
  ok_or_Exception (rq_now rq) /\ ok_or_Exception (rq_create_session rq) /\
  ok_or_Exception (rq_history rq).

End Views.

(* ------------------------------------------------------------------ *)
(** ** product/models.py : stock checks, [Product.save] and [restock] *)
(* ------------------------------------------------------------------ *)

Module StockChecks.
Import Inventory.
Local Open Scope Z_scope.

(** [Product.is_in_stock()]. *)
Definition is_in_stock (p : Product) : bool :=
  if negb (is_track_inventory p) then true
  else if allow_backorder p then true
  else get_available_quantity p >? 0.

(** [Product.can_fulfill_order(quantity)]. *)
Definition can_fulfill_order (p : Product) (n : Z) : bool :=
  if negb (is_track_inventory p) then true
  else if allow_backorder p then true
  else get_available_quantity p >=? n.

End StockChecks.

Module Catalog.
Import Py.
Local Open Scope Z_scope.

(** The fields of a [Product] that [Product.save] and [restock] read or
    write.  The quantity has type [Q]: an [int] in a database row, and in
    an instance either an [int] or the expression [F('quantity') + d]. *)
Record ProductFields (Q : Type) := mkProductFields {
  sku : option string;
  quantity : Q;
  is_track_inventory : bool;
  allow_backorder : bool;
  status : string;
  is_available : bool;
  published_at : option Z;
  last_restocked : option Z;
  updated_at : option Z
}.
Arguments mkProductFields {Q}.
Arguments sku {Q}.
Arguments quantity {Q}.
Arguments is_track_inventory {Q}.
Arguments allow_backorder {Q}.
Arguments status {Q}.
Arguments is_available {Q}.
Arguments published_at {Q}.
Arguments last_restocked {Q}.
Arguments updated_at {Q}.

(** The value held by [product.quantity]: a Python [int], or the Django
    expression [F('quantity') + d]. *)
Inductive IntVal :=
  | PyInt (z : Z)
  | FQuantityPlus (d : Z).

Definition Row := ProductFields Z.
Definition Instance := ProductFields IntVal.

(** [x <= k] and [x > k] for an [int] constant [k]: a Django expression
    defines no ordering, so Python raises [TypeError]. *)
Definition py_le (v : IntVal) (k : Z) : outcome bool :=
  match v with
  | PyInt z => Ok (z <=? k)
  | FQuantityPlus _ => Raise TypeError
  end.

Definition py_gt (v : IntVal) (k : Z) : outcome bool :=
  match v with
  | PyInt z => Ok (k <? z)
  | FQuantityPlus _ => Raise TypeError
  end.

(** [Product.objects.get(pk=...)]: an instance holding the row's values. *)
Definition from_db (r : Row) : Instance :=
  mkProductFields (sku r) (PyInt (quantity r)) (is_track_inventory r)
    (allow_backorder r) (status r) (is_available r) (published_at r)
    (last_restocked r) (updated_at r).

Definition set_sku (p : Instance) (v : option string) : Instance :=
  mkProductFields v (quantity p) (is_track_inventory p) (allow_backorder p)
    (status p) (is_available p) (published_at p) (last_restocked p) (updated_at p).

Definition set_quantity (p : Instance) (v : IntVal) : Instance :=
  mkProductFields (sku p) v (is_track_inventory p) (allow_backorder p)
    (status p) (is_available p) (published_at p) (last_restocked p) (updated_at p).

Definition set_status (p : Instance) (st : string) (avail : bool) : Instance :=
  mkProductFields (sku p) (quantity p) (is_track_inventory p) (allow_backorder p)
    st avail (published_at p) (last_restocked p) (updated_at p).

Definition set_published_at (p : Instance) (v : option Z) : Instance :=
  mkProductFields (sku p) (quantity p) (is_track_inventory p) (allow_backorder p)
    (status p) (is_available p) v (last_restocked p) (updated_at p).

Definition set_last_restocked (p : Instance) (v : option Z) : Instance :=
  mkProductFields (sku p) (quantity p) (is_track_inventory p) (allow_backorder p)
    (status p) (is_available p) (published_at p) v (updated_at p).

Definition set_updated_at (p : Instance) (v : option Z) : Instance :=
  mkProductFields (sku p) (quantity p) (is_track_inventory p) (allow_backorder p)
    (status p) (is_available p) (published_at p) (last_restocked p) v.

(** The value an [UPDATE] writes for the quantity column: an expression is
    evaluated against the current row. *)
Definition resolve (old_quantity : Z) (v : IntVal) : Z :=
  match v with
  | PyInt z => z
  | FQuantityPlus d => old_quantity + d
  end.

(** [Model.save(update_fields=...)] on the fields above.  [None] for the row
    stands for an instance not yet saved ([pk] is [None]): it is inserted,
    which refuses [update_fields] and expressions ([ValueError]).  An update
    writes the listed fields ([None]: all of them); the [auto_now] field
    [updated_at] is set when it is written. *)
Definition model_write (now : Z) (update_fields : option (list string))
    (p : Instance) (row : option Row) : outcome (Instance * Row) :=
  let saves f := match update_fields with
                 | None => true
                 | Some fs => existsb (String.eqb f) fs
                 end in
  let p := if saves "updated_at" then set_updated_at p (Some now) else p in
  match row with
  | None =>
      match update_fields, quantity p with
      | None, PyInt q =>
          Ok (p, mkProductFields (sku p) q (is_track_inventory p) (allow_backorder p)
                   (status p) (is_available p) (published_at p) (last_restocked p)
                   (updated_at p))
      | _, _ => Raise ValueError
      end
  | Some r =>
      Ok (p, mkProductFields
               (if saves "sku" then sku p else sku r)
               (if saves "quantity" then resolve (quantity r) (quantity p) else quantity r)
               (if saves "is_track_inventory" then is_track_inventory p else is_track_inventory r)
               (if saves "allow_backorder" then allow_backorder p else allow_backorder r)
               (if saves "status" then status p else status r)
               (if saves "is_available" then is_available p else is_available r)
               (if saves "published_at" then published_at p else published_at r)
               (if saves "last_restocked" then last_restocked p else last_restocked r)
               (if saves "updated_at" then updated_at p else updated_at r))
  end.

(** [Product.save()] (lines 141-158); [sku_draw] is the text
    of [uuid.uuid4().hex[:8].upper()] and [now] the clock. *)
Definition Product_save (now : Z) (sku_draw : string)
    (update_fields : option (list string)) (self : Instance) (row : option Row)
  : outcome (Instance * Row) :=
  let self := if truthy (sku self) then self
              else set_sku self (Some ("PROD-" ++ sku_draw)%string) in
  out_of_stock <- (if is_track_inventory self
                   then b <- py_le (quantity self) 0 ;;
                        Ok (b && negb (allow_backorder self))
                   else Ok false) ;;
  self <- (if out_of_stock then Ok (set_status self "out_of_stock" false)
           else back <- (if String.eqb (status self) "out_of_stock"
                         then py_gt (quantity self) 0 else Ok false) ;;
                Ok (if back then set_status self "active" true else self)) ;;
  let self := if String.eqb (status self) "active" && negb (bool_decide (is_Some (published_at self)))
              then set_published_at self (Some now) else self in
  model_write now update_fields self row.

(** [Product.restock(quantity)] (lines 246-258) on the locked row [row]
    ([None]: no row with that primary key, [DoesNotExist]).  The block is
    atomic: when it raises, the row is left as it was. *)
Definition restock (now : Z) (sku_draw : string) (row : option Row) (n : Z)
  : outcome unit * option Row :=
  match row with
  | None => (Raise DoesNotExist, row)
  | Some r =>
      let product := from_db r in
      let product := set_quantity product (FQuantityPlus n) in
      let product := set_last_restocked product (Some now) in
      let result :=
        back <- (if String.eqb (status product) "out_of_stock"
                 then py_gt (quantity product) 0 else Ok false) ;;
        let product := if back then set_status product "active" true else product in
        Product_save now sku_draw
          (Some ["quantity"; "last_restocked"; "status"; "is_available"]) product (Some r) in
      match result with
      | Ok (_, r') => (Ok tt, Some r')
      | Raise e => (Raise e, row)
      | OutOfFuel => (OutOfFuel, row)
      end
  end.


End Catalog.

(* ------------------------------------------------------------------ *)
(** ** SokHub/order/models.py : [CartItem.save] and [CartItem.can_be_added] *)
(* ------------------------------------------------------------------ *)

Module CartSave.
Import Py Inventory StockChecks Carts.
Local Open Scope Z_scope.

(** How [CartItem.save] can fail: the [ValidationError] it raises itself
    (carrying the available quantity it reports), or an exception of the
    database layer. *)
Inductive SaveError :=
  | ValidationError (available : Z)
  | DbError (e : exc).

(** [unique_together = ['cart', 'product']]: no other row has the same cart
    and product. *)
Definition unique_ok (db : DB) (it : CartItem) : bool :=
  negb (existsb (fun x => negb (ci_pk x =? ci_pk it) && (ci_cart x =? ci_cart it) &&
                          (ci_product x =? ci_product it)) (cart_items db)).

(** [super().save()] for a new row: an [INSERT]. *)
Definition insert_row (db : DB) (it : CartItem) : (SaveError + CartItem) * DB :=
  if unique_ok db it then (inr it, mkDB (cart_items db ++ [it]) (products db))
  else (inl (DbError IntegrityError), db).

(** [super().save()] for an existing row: an [UPDATE] of the row with the
    same primary key. *)
Definition update_row (db : DB) (it : CartItem) : (SaveError + CartItem) * DB :=
  if unique_ok db it
  then (inr it, mkDB (map (fun x => if ci_pk x =? ci_pk it then it else x) (cart_items db))
                     (products db))
  else (inl (DbError IntegrityError), db).

Definition set_product (db : DB) (k : Z) (p : Product) : DB :=
  mkDB (cart_items db) (<[k := p]> (products db)).

(** [CartItem.save()] (lines 502-517) for the item with primary key [pk]
    ([None] for a new item, which receives [next_pk]), cart, product and
    quantity.  [self.product] is read from the products table.  The stock
    calls are not inside a transaction: a later failure of the write keeps
    them.  The [post_save] receiver [update_cart_timestamp] only saves the
    [Cart] row, which is not modelled. *)
Definition CartItem_save (next_pk : Z) (pk : option Z) (cart product quantity : Z)
    (db : DB) : (SaveError + CartItem) * DB :=
  match products db !! product with
  | None => (inl (DbError DoesNotExist), db)
  | Some p =>
      match pk with
      | None =>
          let '(ok, p') := reserve_stock p quantity in
          if negb ok then (inl (ValidationError (get_available_quantity p)), db)
          else insert_row (set_product db product p') (mkCartItem next_pk cart product quantity)
      | Some k =>
          match find (fun x => ci_pk x =? k) (cart_items db) with
          | None => (inl (DbError DoesNotExist), db)
          | Some old =>
              let it := mkCartItem k cart product quantity in
              let quantity_diff := quantity - ci_quantity old in
              if 0 <? quantity_diff then
                let '(ok, p') := reserve_stock p quantity_diff in
                if negb ok then (inl (ValidationError (get_available_quantity p)), db)
                else update_row (set_product db product p') it
              else if quantity_diff <? 0 then
                update_row (set_product db product (release_stock p (Z.abs quantity_diff))) it
              else update_row db it
          end
      end
  end.

(** [CartItem.can_be_added(additional_quantity)] (lines 532-538). *)
Definition can_be_added (it : CartItem) (additional_quantity : Z) (db : DB) : outcome bool :=
  match products db !! ci_product it with
  | None => Raise DoesNotExist
  | Some p =>
      if negb (is_track_inventory p) then Ok true
      else Ok (can_fulfill_order p (ci_quantity it + additional_quantity))
  end.

End CartSave.

(* ------------------------------------------------------------------ *)
(** ** SokHub/order/models.py : [Order.approve_deletion] and
       [OrderItem.restore_stock] *)
(* ------------------------------------------------------------------ *)

Module Deletion.
Import Py Inventory Orders.
Local Open Scope Z_scope.

(** The three deletion-approval fields of an [Order] row that
    [approve_deletion] assigns. *)
Record DeletionApproval := mkDeletionApproval {
  delete_approved : bool;
  delete_approved_by : option Z;
  delete_approved_at : option Z
}.

Definition set_status (o : Order) (s : string) : Order :=
  mkOrder (pk o) (order_number o) (short_code o) (invoice_number o) s
    (status_changed_at o) (payment_status o) (payment_date o)
    (momo_number o) (momo_transaction_id o) (updated_at o).

(** [OrderItem.restore_stock()] (lines 441-447) on the stored order [o]:
    [self.product] is loaded from the products table (a missing row raises
    [DoesNotExist]); when it tracks inventory and the item is not cancelled,
    [Product.release_stock(quantity)] runs, [is_cancelled] is set and
    [self.save()] runs.  [OrderItem.save()] writes the item and calls
    [self.order.calculate_totals()], which ends in [order.save()]; the price
    fields it recomputes are not modelled. *)
Definition OrderItem_restore_stock (env : SaveEnv) (fuel : nat) (o : Order)
    (products : gmap Z Product) (it : OrderItem)
  : outcome (Order * gmap Z Product * OrderItem) :=
  match products !! item_product it with
  | None => Raise DoesNotExist
  | Some p =>
      if is_track_inventory p && negb (is_cancelled it) then
        let products' := <[item_product it := release_stock p (item_quantity it)]> products in
        let it' := mkOrderItem (item_product it) (item_quantity it) true in
        o' <- Order_save env fuel o ;;
        Ok (o', products', it')
      else Ok (o, products, it)
  end.

(** [for item in self.items.all(): item.restore_stock()]. *)
Fixpoint restore_items (env : SaveEnv) (fuel : nat) (o : Order)
    (products : gmap Z Product) (items : list OrderItem)
  : outcome (Order * gmap Z Product * list OrderItem) :=
  match items with
  | [] => Ok (o, products, [])
  | it :: rest =>
      r <- OrderItem_restore_stock env fuel o products it ;;
      let '(o1, products1, it') := r in
      r' <- restore_items env fuel o1 products1 rest ;;
      let '(o2, products2, rest') := r' in
      Ok (o2, products2, it' :: rest')
  end.

(** [Order.approve_deletion(approved_by)] (lines 334-344); the clock value
    [timezone.now()] is [env_now env]. *)
Definition approve_deletion (env : SaveEnv) (fuel : nat) (o : Order)
    (items : list OrderItem) (products : gmap Z Product) (approved_by : Z)
  : outcome (Order * DeletionApproval * gmap Z Product * list OrderItem) :=
  let approval := mkDeletionApproval true (Some approved_by) (Some (env_now env)) in
  let o1 := set_status o "cancelled" in
  o2 <- Order_save env fuel o1 ;;
  r <- restore_items env fuel o2 products items ;;
  let '(o3, products', items') := r in
  Ok (o3, approval, products', items').

End Deletion.

(* ------------------------------------------------------------------ *)
(** ** SokHub/AI_Assistant/service.py : [AIService._rank_products] *)
(* ------------------------------------------------------------------ *)

Module Ranking.
Import Py PyStr.
Local Open Scope Z_scope.

(** The fields of a [Product] that [_rank_products] reads.  [Product] has
    no attribute [image] or [rating] (its fields are [main_image] and
    [average_rating]), so both [hasattr] tests are false and the two
    boosts never apply to the products [find_products_by_wish] passes. *)
Record ListedProduct := mkListedProduct {
  lp_name : string;
  lp_description : option string
}.

(** [list.sort(key=..., reverse=True)]: a stable sort on decreasing keys,
    items with equal keys keep their order.  Written as an insertion sort;
    the output of such a sort is unique ([rank_products_unique]). *)
Fixpoint insert_desc {A} (key : A -> Z) (x : A) (l : list A) : list A :=
  match l with
  | [] => [x]
  | y :: l' => if key y <=? key x then x :: l else y :: insert_desc key x l'
  end.

Fixpoint sort_desc {A} (key : A -> Z) (l : list A) : list A :=
  match l with
  | [] => []
  | x :: rest => insert_desc key x (sort_desc key rest)
  end.

Section Rank.
(** [str.lower]. *)
Variable lower : string -> string.

(** The score of one product in [_rank_products] (lines 253-268). *)
Definition rank_score (keywords : list string) (product : ListedProduct) : Z :=
  let prod_name := lower (lp_name product) in
  let prod_desc :=
    match lp_description product with
    | Some d => if truthy (Some d) then lower d else ""
    | None => ""
    end in
  fold_left (fun score keyword =>
               let score := if contains keyword prod_name then score + 3 else score in
               if contains keyword prod_desc then score + 1 else score)
            keywords 0.

(** [AIService._rank_products(products, keywords)] (lines 250-276). *)
Definition rank_products (products : list ListedProduct) (keywords : list string)
  : list ListedProduct :=
  let ranked := map (fun product => (product, rank_score keywords product)) products in
  map fst (sort_desc snd ranked).

End Rank.
End Ranking.

(* ================================================================== *)
(** * Properties *)
(* ================================================================== *)

Module InventoryFacts.
Import Inventory.
Local Open Scope Z_scope.

Lemma get_available_quantity_ge_diff (p : Product) :
  quantity p - reservation_count p <= get_available_quantity p.
Proof. unfold get_available_quantity. lia. Qed.

(** Claim C1 (as stated, refuted): for a tracked product with
    [allow_backorder] false whose raw difference [quantity -
    reservation_count] is [-5], a reservation of [0] units succeeds,
    although the difference is below [0]: the guard compares against
    [max(0, quantity - reservation_count)], not the raw difference. *)
Lemma reserve_stock_raw_difference_counterexample :
  let p := mkProduct 0 5 0 5 true false None in
  is_track_inventory p = true /\ allow_backorder p = false /\
  quantity p - reservation_count p < 0 /\
  fst (reserve_stock p 0) = true.
Proof. vm_compute. repeat split; reflexivity. Qed.

(** Claim C1 (amended): an untracked product reserves without changes; a
    tracked one reserves [n] (adding exactly [n] to [reservation_count] and
    returning [True]) when backorders are allowed or
    [get_available_quantity() = max(0, quantity - reservation_count)] is at
    least [n], and otherwise returns [False] with the row unchanged. *)
Theorem reserve_stock_outcomes (p : Product) (n : Z) :
  (is_track_inventory p = false -> reserve_stock p n = (true, p)) /\
 (is_track_inventory p = true ->
     (allow_backorder p = true \/ n <= get_available_quantity p) ->
     fst (reserve_stock p n) = true /\
    reservation_count (snd (reserve_stock p n)) = reservation_count p + n /\
    quantity (snd (reserve_stock p n)) = quantity p /\
    snd (reserve_stock p n) = set_reservation_count p (reservation_count p + n)) /\
 (is_track_inventory p = true -> allow_backorder p = false ->
     get_available_quantity p < n ->
     reserve_stock p n = (false, p)).
Proof.
  unfold reserve_stock. split; [|split].
  - intros H. rewrite H. reflexivity.
  - intros Ht Hc. rewrite Ht. simpl.
    destruct Hc as [Hb | Hle].
    + rewrite Hb. simpl. repeat split; reflexivity.
    + assert (E : (get_available_quantity p <? n) = false) by (apply Z.ltb_ge; lia).
      rewrite E, andb_false_r. simpl. repeat split; reflexivity.
  - intros Ht Hb Hlt. rewrite Ht, Hb. simpl.
    assert (E : (get_available_quantity p <? n) = true) by (apply Z.ltb_lt; lia).
    rewrite E. reflexivity.
Qed.

(** Claim C3 (as stated, refuted): with [quantity = 0],
    [reservation_count = 5] and [n = -1], [get_available_quantity() = 0 >=
    -1], the reservation succeeds, but the available quantity stays [0]
    instead of becoming [0 - (-1) = 1]. *)
Lemma reserve_stock_available_counterexample :
  let p := mkProduct 0 5 0 5 true false None in
  is_track_inventory p = true /\
 -1 <= get_available_quantity p /\
  fst (reserve_stock p (-1)) = true /\
  quantity (snd (reserve_stock p (-1))) = quantity p /\
  get_available_quantity (snd (reserve_stock p (-1))) <> get_available_quantity p - (-1).
Proof. vm_compute. repeat split; try reflexivity; discriminate. Qed.

(** Claim C3 (amended): for a tracked product and [n <=
    get_available_quantity()] with [n >= 0] (or with a row that is not
    over-reserved, [reservation_count <= quantity]), [reserve_stock(n)]
    succeeds, lowers [get_available_quantity()] by exactly [n] and leaves
    [quantity] unchanged. *)
Theorem reserve_stock_lowers_available (p : Product) (n : Z) :
  is_track_inventory p = true ->
  n <= get_available_quantity p ->
  (0 <= n \/ reservation_count p <= quantity p) ->
  fst (reserve_stock p n) = true /\
  get_available_quantity (snd (reserve_stock p n)) = get_available_quantity p - n /\
  quantity (snd (reserve_stock p n)) = quantity p.
Proof.
  intros Ht Hle Hn.
  destruct (reserve_stock_outcomes p n) as [_ [H _]].
  destruct (H Ht (or_intror Hle)) as (Hb & Hr & Hq & Hp).
  split; [exact Hb|]. split; [|exact Hq].
  rewrite Hp. unfold get_available_quantity in *. simpl. lia.
Qed.

Lemma reserve_stock_lowers_available_witness :
  let p := mkProduct 10 2 0 5 true false None in
  fst (reserve_stock p 3) = true /\
  get_available_quantity (snd (reserve_stock p 3)) = get_available_quantity p - 3 /\
  quantity (snd (reserve_stock p 3)) = quantity p.
Proof.
  apply (reserve_stock_lowers_available (mkProduct 10 2 0 5 true false None) 3).
  - reflexivity.
  - vm_compute. discriminate.
  - left. lia.
Defined.

(** Claim C4: on a tracked product, a successful [reserve_stock(n)]
    followed by [release_stock(n)] gives back the original row: the
    reservation count and hence the available quantity are restored, and
    [quantity] is never changed on the way. *)
Theorem reserve_release_roundtrip (p : Product) (n : Z) :
  is_track_inventory p = true ->
  fst (reserve_stock p n) = true ->
  quantity (snd (reserve_stock p n)) = quantity p /\
  release_stock (snd (reserve_stock p n)) n = p /\
  reservation_count (release_stock (snd (reserve_stock p n)) n) = reservation_count p /\
  get_available_quantity (release_stock (snd (reserve_stock p n)) n) =
    get_available_quantity p.
Proof.
  intros Ht Hok.
  assert (Hrel : release_stock (snd (reserve_stock p n)) n = p).
  { unfold reserve_stock in *. rewrite Ht in *. simpl in *.
    destruct (negb (allow_backorder p) && (get_available_quantity p <? n));
      simpl in Hok.
    - discriminate.
    - unfold release_stock, set_reservation_count. simpl. rewrite Ht. simpl.
      destruct p; simpl in *. f_equal; [lia | congruence]. }
  split; [|split; [exact Hrel|]].
  - unfold reserve_stock. rewrite Ht. simpl.
    destruct (negb (allow_backorder p) && (get_available_quantity p <? n)); reflexivity.
  - rewrite Hrel. split; reflexivity.
Qed.

Lemma reserve_release_roundtrip_witness :
  let p := mkProduct 4 1 0 5 true false None in
  quantity (snd (reserve_stock p 2)) = quantity p /\
  release_stock (snd (reserve_stock p 2)) 2 = p /\
  reservation_count (release_stock (snd (reserve_stock p 2)) 2) = reservation_count p /\
  get_available_quantity (release_stock (snd (reserve_stock p 2)) 2) =
    get_available_quantity p.
Proof.
  apply (reserve_release_roundtrip (mkProduct 4 1 0 5 true false None) 2);
    reflexivity.
Defined.

(** Claim C9: on a tracked product [release_stock(n)] subtracts exactly [n]
    from [reservation_count] whatever its value; so a release with no
    matching reservation (10 units on hand, nothing reserved, release 3)
    drives [reservation_count] to [-3] and [get_available_quantity()] to
    [13], above [quantity]. *)
Theorem release_stock_unguarded :
  (forall (p : Product) (n : Z), is_track_inventory p = true ->
     release_stock p n = set_reservation_count p (reservation_count p - n) /\
    reservation_count (release_stock p n) = reservation_count p - n /\
    quantity (release_stock p n) = quantity p) /\
 (exists (p : Product) (n : Z),
     is_track_inventory p = true /\ reservation_count p = 0 /\ 0 <= quantity p /\
    reservation_count (release_stock p n) < 0 /\
    quantity (release_stock p n) < get_available_quantity (release_stock p n)).
Proof.
  split.
  - intros p n Ht. unfold release_stock. rewrite Ht. simpl.
    repeat split; reflexivity.
  - exists (mkProduct 10 0 0 5 true false None), 3.
    vm_compute. repeat split; try reflexivity; discriminate.
Qed.

End InventoryFacts.

Module OrderFacts.
Import Py Inventory Orders.
Local Open Scope Z_scope.

Lemma class_namespace_save :
  class_namespace Order_class_body !! "save" = Some A_save_v2.
Proof. reflexivity. Qed.

Lemma regenerate_until_unique_frame (env : SaveEnv) (fuel k : nat) (o o' : Order) :
  regenerate_until_unique env fuel k o = Ok o' ->
  pk o' = pk o /\ short_code o' = short_code o /\
  invoice_number o' = invoice_number o /\ status o' = status o /\
  status_changed_at o' = status_changed_at o /\
  existsb (String.eqb (order_number o')) (existing_numbers env) = false.
Proof.
  revert k o. induction fuel as [|f IH]; intros k o H; simpl in H.
  - destruct (existsb (String.eqb (order_number o)) (existing_numbers env)) eqn:E;
      [discriminate|].
    injection H as <-. repeat split; assumption || reflexivity.
  - destruct (existsb (String.eqb (order_number o)) (existing_numbers env)) eqn:E.
    + apply IH in H. simpl in H. exact H.
    + injection H as <-. repeat split; assumption || reflexivity.
Qed.

Lemma model_save_frame (env : SaveEnv) (o : Order) :
  order_number (model_save env o) = order_number o /\
  short_code (model_save env o) = short_code o /\
  invoice_number (model_save env o) = invoice_number o /\
  status (model_save env o) = status o /\
  payment_status (model_save env o) = payment_status o /\
  payment_date (model_save env o) = payment_date o /\
  (pk o <> None -> status_changed_at (model_save env o) = status_changed_at o /\
                   pk (model_save env o) = pk o).
Proof.
  unfold model_save. destruct (pk o) eqn:E; simpl.
  - repeat split; reflexivity.
  - repeat split; try reflexivity; contradiction.
Qed.

(** Claim C10: [save] resolves to the second definition of the class body,
    and a save that completes leaves [short_code] and [invoice_number] as
    they were (empty on a new order that did not set them), leaves
    [status_changed_at] untouched on an existing order whatever the stored
    status was, and gives a new order an [order_number] not yet in the
    table. *)
Theorem Order_save_sets_only_order_number (env : SaveEnv) (fuel : nat) (o o' : Order) :
  Order_save env fuel o = Ok o' ->
  class_namespace Order_class_body !! "save" = Some A_save_v2 /\
  short_code o' = short_code o /\
  invoice_number o' = invoice_number o /\
  status o' = status o /\
  (pk o <> None -> status_changed_at o' = status_changed_at o) /\
  (pk o = None ->
     existsb (String.eqb (order_number o')) (existing_numbers env) = false).
Proof.
  intros H. split; [exact class_namespace_save|].
  unfold Order_save in H. rewrite class_namespace_save in H.
  unfold save_v2 in H.
  set (p := if String.eqb (order_number o) "" then
              (set_order_number o (gen_draw env 0), 1%nat) else (o, 0%nat)) in H.
  assert (Hp : pk (fst p) = pk o /\ short_code (fst p) = short_code o /\
               invoice_number (fst p) = invoice_number o /\ status (fst p) = status o /\
               status_changed_at (fst p) = status_changed_at o).
  { subst p. destruct (String.eqb (order_number o) ""); simpl;
      repeat split; reflexivity. }
  destruct p as [o1 k]. simpl in Hp. destruct Hp as (Hpk & Hsc & Hin & Hst & Hsca).
  rewrite Hpk in H.
  destruct (pk o) as [key|] eqn:Epk; simpl in H.
  - injection H as <-.
    destruct (model_save_frame env o1) as (_ & Fsc & Fin & Fst & _ & _ & Fpk).
    repeat split; try congruence.
    intros _. destruct (Fpk ltac:(congruence)) as [Fsca _]. congruence.
  - destruct (regenerate_until_unique env fuel k o1) as [o2| |] eqn:Er;
      simpl in H; try discriminate.
    injection H as <-.
    destruct (regenerate_until_unique_frame env fuel k o1 o2 Er)
      as (Rpk & Rsc & Rin & Rst & Rsca & Runiq).
    destruct (model_save_frame env o2) as (Fno & Fsc & Fin & Fst & _ & _ & _).
    repeat split; congruence.
Qed.

Definition save_env_example : SaveEnv :=
  mkSaveEnv 1700000000 ["ORD-20250101-AAAAAA"]
    (fun k => match k with
              | O => "ORD-20250101-AAAAAA"
              | _ => "ORD-20250101-BBBBBB"
              end) 7 "pending".

Definition new_order_example : Order :=
  mkOrder None "" "" "" "pending" None "pending" None None None None.

Lemma Order_save_sets_only_order_number_witness :
  Order_save save_env_example 3 new_order_example =
    Ok (mkOrder (Some 7) "ORD-20250101-BBBBBB" "" "" "pending" (Some 1700000000)
          "pending" None None None (Some 1700000000)) /\
  short_code (mkOrder (Some 7) "ORD-20250101-BBBBBB" "" "" "pending" (Some 1700000000)
          "pending" None None None (Some 1700000000)) = "" /\
  (class_namespace Order_class_body !! "save" = Some A_save_v2 /\
   short_code (mkOrder (Some 7) "ORD-20250101-BBBBBB" "" "" "pending" (Some 1700000000)
          "pending" None None None (Some 1700000000)) = short_code new_order_example /\
   invoice_number (mkOrder (Some 7) "ORD-20250101-BBBBBB" "" "" "pending" (Some 1700000000)
          "pending" None None None (Some 1700000000)) = invoice_number new_order_example /\
   status (mkOrder (Some 7) "ORD-20250101-BBBBBB" "" "" "pending" (Some 1700000000)
          "pending" None None None (Some 1700000000)) = status new_order_example /\
   (pk new_order_example <> None ->
      status_changed_at (mkOrder (Some 7) "ORD-20250101-BBBBBB" "" "" "pending"
          (Some 1700000000) "pending" None None None (Some 1700000000)) =
      status_changed_at new_order_example) /\
   (pk new_order_example = None ->
      existsb (String.eqb (order_number (mkOrder (Some 7) "ORD-20250101-BBBBBB" "" ""
          "pending" (Some 1700000000) "pending" None None None (Some 1700000000))))
        (existing_numbers save_env_example) = false)).
Proof.
  split; [reflexivity|]. split; [reflexivity|].
  apply (Order_save_sets_only_order_number save_env_example 3 new_order_example).
  reflexivity.
Defined.

(** The net effect of committing a list of order items on one product row. *)
Definition committed_row (items : list OrderItem) (pid : Z) (p p' : Product) : Prop :=
  let s := if is_track_inventory p then committed_units items pid else 0 in
  is_track_inventory p' = is_track_inventory p /\
  quantity p' = quantity p - s /\
  reservation_count p' = reservation_count p - s /\
  purchase_count p' = purchase_count p + s.

Lemma commit_items_effect (now : Z) (items : list OrderItem) (products : gmap Z Product) :
  Forall (fun it => is_Some (products !! item_product it)) items ->
  exists products',
    commit_items now products items = Ok products' /\
    (forall pid, is_Some (products !! pid) -> is_Some (products' !! pid)) /\
    (forall pid p, products !! pid = Some p ->
       exists p', products' !! pid = Some p' /\ committed_row items pid p p').
Proof.
  revert products. induction items as [|it rest IH]; intros products Hall.
  - exists products. split; [reflexivity|]. split; [auto|].
    intros pid p Hp. exists p. split; [exact Hp|].
    unfold committed_row; simpl. destruct (is_track_inventory p); repeat split; lia.
  - inversion Hall as [|? ? Hit Hrest]; subst.
    destruct Hit as [p0 Hp0].
    assert (Hstep : exists products1,
      OrderItem_commit_stock now products it = Ok products1 /\
      (forall pid, is_Some (products !! pid) -> is_Some (products1 !! pid)) /\
      (forall pid p, products !! pid = Some p ->
         exists p1, products1 !! pid = Some p1 /\
           is_track_inventory p1 = is_track_inventory p /\
           let s := if is_track_inventory p && (item_product it =? pid) &&
                       negb (is_cancelled it) then item_quantity it else 0 in
           quantity p1 = quantity p - s /\
           reservation_count p1 = reservation_count p - s /\
           purchase_count p1 = purchase_count p + s)).
    { unfold OrderItem_commit_stock. rewrite Hp0.
      destruct (is_track_inventory p0 && negb (is_cancelled it)) eqn:Ec.
      - eexists. split; [reflexivity|]. split.
        + intros pid Hs. destruct (decide (item_product it = pid)) as [<-|Hne].
          * rewrite lookup_insert_eq. eauto.
          * rewrite lookup_insert_ne by exact Hne. exact Hs.
        + intros pid p Hp. destruct (decide (item_product it = pid)) as [<-|Hne].
          * rewrite Hp0 in Hp. injection Hp as <-.
            rewrite lookup_insert_eq. eexists. split; [reflexivity|].
            apply andb_prop in Ec as [Et Ecn].
            unfold commit_stock. rewrite Et, Z.eqb_refl, Ecn. simpl.
            repeat split; lia.
          * rewrite lookup_insert_ne by exact Hne. exists p. split; [exact Hp|].
            assert (E : (item_product it =? pid) = false) by (apply Z.eqb_neq; exact Hne).
            rewrite E, andb_false_r. simpl. repeat split; lia.
      - eexists. split; [reflexivity|]. split; [auto|].
        intros pid p Hp. exists p. split; [exact Hp|]. split; [reflexivity|].
        destruct (decide (item_product it = pid)) as [<-|Hne].
        + rewrite Hp0 in Hp. injection Hp as <-.
          rewrite Z.eqb_refl, andb_true_r, Ec. repeat split; lia.
        + assert (E : (item_product it =? pid) = false) by (apply Z.eqb_neq; exact Hne).
          rewrite E, andb_false_r. simpl. repeat split; lia. }
    destruct Hstep as (products1 & Hc1 & Hdom1 & Hrow1).
    assert (Hrest1 : Forall (fun it => is_Some (products1 !! item_product it)) rest).
    { eapply Forall_impl; [exact Hrest|]. intros x Hx. apply Hdom1. exact Hx. }
    destruct (IH products1 Hrest1) as (products' & Hc' & Hdom' & Hrow').
    exists products'. simpl. rewrite Hc1. simpl. split; [exact Hc'|]. split.
    + intros pid Hs. apply Hdom', Hdom1, Hs.
    + intros pid p Hp.
      destruct (Hrow1 pid p Hp) as (p1 & Hp1 & Ht1 & Hq1 & Hr1 & Hc1').
      destruct (Hrow' pid p1 Hp1) as (p' & Hp' & Ht' & Hq' & Hr' & Hpc').
      exists p'. split; [exact Hp'|].
      unfold committed_row in *. simpl. rewrite Ht1 in Hq', Hr', Hpc'.
      split; [congruence|].
      destruct (is_track_inventory p); simpl in *;
        destruct ((item_product it =? pid) && negb (is_cancelled it)); simpl in *;
        repeat split; lia.
Qed.

(** Claim C2: on a saved order whose items all point at existing products,
    [mark_as_paid] returns normally with [payment_status = 'completed'],
    [status = 'confirmed'] and [payment_date] set to the current time; each
    product that tracks inventory loses from [quantity] and from
    [reservation_count], and gains in [purchase_count], exactly the
    quantities of the order's non-cancelled items on it (the item's own
    quantity when the product occurs in one item); other products keep
    these fields. *)
Theorem mark_as_paid_commits (env : SaveEnv) (fuel : nat) (o : Order)
    (items : list OrderItem) (products : gmap Z Product)
    (momo txid : option string) (key : Z) :
  pk o = Some key ->
  Forall (fun it => is_Some (products !! item_product it)) items ->
  exists o' products',
    mark_as_paid env fuel o items products momo txid = Ok (o', products') /\
    payment_status o' = "completed" /\
    status o' = "confirmed" /\
    payment_date o' = Some (env_now env) /\
    (forall pid p, products !! pid = Some p ->
       exists p', products' !! pid = Some p' /\ committed_row items pid p p').
Proof.
  intros Hpk Hall.
  destruct (commit_items_effect (env_now env) items products Hall)
    as (products' & Hc & _ & Hrow).
  unfold mark_as_paid, Order_save. rewrite class_namespace_save.
  unfold save_v2. simpl. rewrite Hpk.
  destruct (String.eqb (order_number o) ""); simpl; rewrite Hc; simpl;
    eexists _, products'; (split; [reflexivity|]);
    repeat split; try reflexivity; exact Hrow.
Qed.

Definition paid_order_example : Order :=
  mkOrder (Some 3) "ORD-20250101-CCCCCC" "" "" "pending" (Some 1) "pending"
    None None None (Some 1).

Definition products_example : gmap Z Product :=
  <[1 := mkProduct 10 4 0 5 true false None]>
    (<[2 := mkProduct 6 0 0 5 false false None]> ∅).

Definition items_example : list OrderItem :=
  [mkOrderItem 1 2 false; mkOrderItem 2 1 false; mkOrderItem 1 5 true].

Lemma mark_as_paid_commits_witness :
  exists o' products',
    mark_as_paid save_env_example 0 paid_order_example items_example
      products_example (Some "0788000000") None = Ok (o', products') /\
    payment_status o' = "completed" /\
    status o' = "confirmed" /\
    payment_date o' = Some (env_now save_env_example) /\
    (forall pid p, products_example !! pid = Some p ->
       exists p', products' !! pid = Some p' /\ committed_row items_example pid p p').
Proof.
  apply (mark_as_paid_commits save_env_example 0 paid_order_example items_example
           products_example (Some "0788000000") None 3).
  - reflexivity.
  - repeat constructor; vm_compute; eexists; reflexivity.
Defined.

End OrderFacts.

Module CartFacts.
Import Py Inventory Carts.

Lemma CartItem_has_no_release_stock :
  CartItem_getattr "release_stock" = None.
Proof. reflexivity. Qed.

(** Claim C5: [Cart.clear] on a cart with at least one item raises
    [AttributeError] (the loop calls [item.release_stock()], which no
    [CartItem] has) and, through the enclosing atomic block, leaves the
    database exactly as it was: no item deleted, no reservation count
    changed; on an empty cart it returns normally without changes. *)
Theorem Cart_clear_outcome (cart : Z) (db : DB) :
  Cart_clear cart db =
    (match items_of cart db with
     | [] => Ok tt
     | _ :: _ => Raise AttributeError
     end, db).
Proof.
  unfold Cart_clear, atomic.
  destruct (items_of cart db) as [|it rest] eqn:E; simpl.
  - reflexivity.
  - unfold st_bind, call_method. rewrite CartItem_has_no_release_stock.
    reflexivity.
Qed.

End CartFacts.

Module LangFacts.
Import PyStr Lang.

Lemma any_in_false (words : list string) (text : string) :
  any_in words text = false <-> Forall (fun w => contains w text = false) words.
Proof.
  unfold any_in. induction words as [|w ws IH]; simpl.
  - split; [constructor | reflexivity].
  - rewrite Forall_cons, <- IH. destruct (contains w text); simpl.
    + split; [discriminate | intros [H _]; discriminate].
    + tauto.
Qed.

Lemma any_in_app_false (a b c : list string) (text : string) :
  (any_in a text = false /\ any_in b text = false /\ any_in c text = false) <->
  Forall (fun w => contains w text = false) (a ++ b ++ c).
Proof.
  rewrite !Forall_app, !any_in_false. tauto.
Qed.

(** Claim C8: both [detect_language] functions return one of ['en'],
    ['fr'], ['rw'], ['sw'] for every text, and return ['en'] exactly when
    none of their French, Kinyarwanda or Swahili keywords is a substring of
    the lower-cased text.  This holds for any lower-casing function that
    maps the empty string to itself, as [str.lower] does. *)
Theorem detect_language_keyword_total (lower : string -> string) (text : string) :
  lower "" = "" ->
  In (detect_language lower text) ["en"; "fr"; "rw"; "sw"] /\
  (detect_language lower text = "en" <->
     Forall (fun w => contains w (lower text) = false)
       (service_fr_words ++ service_rw_words ++ service_sw_words)) /\
  In (detect_language_ai lower text) ["en"; "fr"; "rw"; "sw"] /\
  (detect_language_ai lower text = "en" <->
     Forall (fun w => contains w (lower text) = false)
       (ai_french_keywords ++ ai_rw_keywords ++ ai_sw_keywords)).
Proof.
  intros Hempty. split; [|split; [|split]].
  - unfold detect_language.
    destruct (any_in service_rw_words (lower text)); [simpl; tauto|].
    destruct (any_in service_fr_words (lower text)); [simpl; tauto|].
    destruct (any_in service_sw_words (lower text)); simpl; tauto.
  - rewrite <- any_in_app_false. unfold detect_language.
    destruct (any_in service_rw_words (lower text));
      [split; [discriminate | intros (_ & H & _); discriminate]|].
    destruct (any_in service_fr_words (lower text));
      [split; [discriminate | intros (H & _); discriminate]|].
    destruct (any_in service_sw_words (lower text));
      [split; [discriminate | intros (_ & _ & H); discriminate]|].
    tauto.
  - unfold detect_language_ai.
    destruct (String.eqb text ""); [simpl; tauto|].
    destruct (any_in ai_french_keywords (lower text)); [simpl; tauto|].
    destruct (any_in ai_rw_keywords (lower text)); [simpl; tauto|].
    destruct (any_in ai_sw_keywords (lower text)); simpl; tauto.
  - rewrite <- any_in_app_false. unfold detect_language_ai.
    destruct (String.eqb text "") eqn:Et.
    + apply String.eqb_eq in Et. subst text. rewrite Hempty.
      split; [intros _; repeat split; reflexivity | reflexivity].
    + destruct (any_in ai_french_keywords (lower text));
        [split; [discriminate | intros (H & _); discriminate]|].
      destruct (any_in ai_rw_keywords (lower text));
        [split; [discriminate | intros (_ & H & _); discriminate]|].
      destruct (any_in ai_sw_keywords (lower text));
        [split; [discriminate | intros (_ & _ & H); discriminate]|].
      tauto.
Qed.

Lemma detect_language_keyword_total_witness :
  In (detect_language ascii_lower "Muraho neza") ["en"; "fr"; "rw"; "sw"] /\
  (detect_language ascii_lower "Muraho neza" = "en" <->
     Forall (fun w => contains w (ascii_lower "Muraho neza") = false)
       (service_fr_words ++ service_rw_words ++ service_sw_words)) /\
  In (detect_language_ai ascii_lower "Muraho neza") ["en"; "fr"; "rw"; "sw"] /\
  (detect_language_ai ascii_lower "Muraho neza" = "en" <->
     Forall (fun w => contains w (ascii_lower "Muraho neza") = false)
       (ai_french_keywords ++ ai_rw_keywords ++ ai_sw_keywords)).
Proof.
  apply (detect_language_keyword_total ascii_lower "Muraho neza").
  reflexivity.
Defined.

End LangFacts.

Module ChatFacts.
Import PyStr Lang Chat.

Section Lowered.
Variable lower : string -> string.
Variable re_split_vendor : string -> list string.
Variable find_products : string -> option string -> nat.
Variable lookup_user : Z -> option string.
Variables m1 m2 : string.
Hypothesis Hlow : lower m1 = lower m2.

Lemma detect_language_lower : detect_language lower m1 = detect_language lower m2.
Proof. unfold detect_language. rewrite Hlow. reflexivity. Qed.

Lemma check_inappropriate_content_lower :
  check_inappropriate_content lower m1 = check_inappropriate_content lower m2.
Proof. unfold check_inappropriate_content. rewrite Hlow. reflexivity. Qed.

Lemma is_business_related_lower :
  is_business_related lower m1 = is_business_related lower m2.
Proof. unfold is_business_related. rewrite Hlow. reflexivity. Qed.

Lemma handle_vendor_query_lower (c : ChatCtx) :
  handle_vendor_query lower m1 c = handle_vendor_query lower m2 c.
Proof. unfold handle_vendor_query. rewrite Hlow. reflexivity. Qed.

Lemma handle_client_query_lower (c : ChatCtx) :
  handle_client_query lower re_split_vendor find_products m1 c =
  handle_client_query lower re_split_vendor find_products m2 c.
Proof. unfold handle_client_query. rewrite Hlow. reflexivity. Qed.

End Lowered.

(** The intent chosen by either handler reads [last_intent] and
    [vendor_mentioned] of the conversation entry, never its history. *)
Lemma handle_vendor_query_history (lower : string -> string) (m : string)
    (c c' : ChatCtx) :
  fst (handle_vendor_query lower m c) = fst (handle_vendor_query lower m c').
Proof.
  unfold handle_vendor_query. cbv beta zeta.
  repeat case_match; reflexivity.
Qed.

Lemma handle_client_query_history (lower : string -> string)
    (re_split_vendor : string -> list string)
    (find_products : string -> option string -> nat) (m : string) (c c' : ChatCtx) :
  last_intent c = last_intent c' -> vendor_mentioned c = vendor_mentioned c' ->
  fst (handle_client_query lower re_split_vendor find_products m c) =
  fst (handle_client_query lower re_split_vendor find_products m c').
Proof.
  destruct c as [h li vm pi], c' as [h' li' vm' pi']. cbn [last_intent vendor_mentioned].
  intros <- <-. unfold handle_client_query. cbv beta zeta.
  destruct (contains "from" (lower m) || contains "by" (lower m) ||
            contains "vendor" (lower m));
    [destruct (2 <? List.length (re_split_vendor (lower m)))%nat;
       [destruct ((1 <? String.length (strip (List.last (re_split_vendor (lower m)) "")))%nat &&
                  negb (existsb (String.eqb (strip (List.last (re_split_vendor (lower m)) "")))
                          ["sokhub"; "market"; "store"]))|]|].
  all: cbn [fst snd last_intent vendor_mentioned history product_interest set_last_intent].
  all: repeat (case_match; cbn [fst snd last_intent vendor_mentioned set_last_intent]).
  all: try reflexivity.
  all: cbn [last_intent vendor_mentioned set_last_intent] in *; congruence.
Qed.

(** Claim C7: the intent that [process_chat_message] returns depends on
    the message only through its lower-cased text: two messages with the
    same [lower] image, sent by the same user in the same service state,
    get the same intent. *)
Theorem process_chat_message_intent_lower
    (lower : string -> string) (re_split_vendor : string -> list string)
    (find_products : string -> option string -> nat)
    (lookup_user : Z -> option string)
    (m1 m2 : string) (user : option string) (user_id : option Z) (st : ChatState) :
  lower m1 = lower m2 ->
  intent (fst (process_chat_message lower re_split_vendor find_products lookup_user
                 m1 user user_id st)) =
  intent (fst (process_chat_message lower re_split_vendor find_products lookup_user
                 m2 user user_id st)).
Proof.
  intros H. unfold process_chat_message. cbv beta zeta.
  rewrite (detect_language_lower lower m1 m2 H),
    (check_inappropriate_content_lower lower m1 m2 H),
    (is_business_related_lower lower m1 m2 H),
    (handle_vendor_query_lower lower m1 m2 H),
    (handle_client_query_lower lower re_split_vendor find_products m1 m2 H), H.
  generalize (@pair string string "user" m1) as e1.
  generalize (@pair string string "user" m2) as e2.
  intros e2 e1. cbn [off_topic_count conversation_context].
  repeat (case_match; cbn [fst intent finish off_topic_count]); try reflexivity.
  all: first [ apply handle_vendor_query_history
             | apply handle_client_query_history; reflexivity ].
Qed.

Definition empty_chat_state : ChatState := mkChatState ∅ ∅.

Lemma process_chat_message_intent_lower_witness :
  intent (fst (process_chat_message ascii_lower (fun _ => []) (fun _ _ => 0%nat)
                 (fun _ => None) "Hello SokHub" None None empty_chat_state)) =
  intent (fst (process_chat_message ascii_lower (fun _ => []) (fun _ _ => 0%nat)
                 (fun _ => None) "HELLO sokhub" None None empty_chat_state)).
Proof.
  apply (process_chat_message_intent_lower ascii_lower (fun _ => []) (fun _ _ => 0%nat)
           (fun _ => None) "Hello SokHub" "HELLO sokhub" None None empty_chat_state).
  reflexivity.
Defined.

End ChatFacts.

Module ViewsFacts.
Import Py PyStr Views.
Local Open Scope Z_scope.

Lemma bind_ok_or_Exception {A B} (m : outcome A) (k : A -> outcome B) :
  ok_or_Exception m -> (forall a, ok_or_Exception (k a)) ->
  ok_or_Exception (bind m k).
Proof. destruct m; simpl; auto. Qed.

Lemma try_except_Exception_total {A} (m : outcome A) (h : exc -> outcome A) :
  ok_or_Exception m -> (forall e, is_Exception e = true -> exists r, h e = Ok r) ->
  exists r, try_except_Exception m h = Ok r.
Proof.
  destruct m as [a|e|]; simpl; intros Hm Hh.
  - eauto.
  - rewrite Hm. apply Hh, Hm.
  - contradiction.
Qed.

Lemma ai_simple_chat_body_ok_or_Exception rq :
  request_raises_only_Exception rq -> ok_or_Exception (ai_simple_chat_body rq).
Proof.
  intros (Hm & Hj & Hmsg & Hc & Hu & Hus & Hn & Hcs & Hh).
  unfold ai_simple_chat_body.
  apply bind_ok_or_Exception; [exact Hm | intros m].
  destruct (negb (String.eqb m "POST")); [exact I |].
  destruct (rq_json rq) as [j|e|]; cbn [try_except_all];
    [| exact I | contradiction].
  apply bind_ok_or_Exception; [exact Hmsg | intros msg].
  destruct (String.eqb msg ""); [exact I |].
  generalize (lower rq msg) as ml; intros ml.
  destruct (find (fun kv => String.eqb (fst kv) ml) simple_greetings)
    as [[k r]|]; [exact I |].
  destruct (find (fun kv => contains (fst kv) ml) simple_greetings)
    as [[k r]|]; [exact I |].
  destruct (contains "sokhub" ml); [exact I |].
  destruct (existsb _ ["product"; "buy"; "price"; "cost"; "shop"; "store"; "item"; "thing"]);
    [exact I |].
  destruct (existsb _ ["vendor"; "sell"; "business"; "report"; "sales"]); [exact I |].
  apply bind_ok_or_Exception; [exact Hu | intros; exact I].
Qed.

Lemma chat_start_body_ok_or_Exception rq :
  request_raises_only_Exception rq -> ok_or_Exception (chat_start_body rq).
Proof.
  intros (Hm & Hj & Hmsg & Hc & Hu & Hus & Hn & Hcs & Hh).
  unfold chat_start_body.
  apply bind_ok_or_Exception; [exact Hm | intros m].
  destruct (negb (String.eqb m "POST")); [exact I |].
  apply bind_ok_or_Exception; [exact Hus | intros user].
  destruct (negb (has_chat_service rq)).
  - apply bind_ok_or_Exception; [exact Hn | intros; exact I].
  - destruct (rq_create_session rq) as [sid|e|]; simpl; [| | contradiction].
    + destruct (rq_history rq) as [h|e|]; simpl; [exact I | | contradiction].
      simpl in Hh. rewrite Hh.
      apply bind_ok_or_Exception; [exact Hn | intros; exact I].
    + simpl in Hcs. rewrite Hcs.
      apply bind_ok_or_Exception; [exact Hn | intros; exact I].
Qed.

(** A request whose message access and whose [request.user] access are
    interrupted by [KeyboardInterrupt] (an exception that is not an
    instance of [Exception]). *)
Definition interrupted_request : Request :=
  {| rq_method := Ok "POST"; rq_json := Ok tt; rq_message := Raise KeyboardInterrupt;
     rq_context := Ok tt; rq_username := Ok "alice";
     rq_user := Raise KeyboardInterrupt; rq_now := Ok "1700000000.0";
     rq_create_session := Ok "s1"; rq_history := Ok tt;
     has_chat_service := true; lower := ascii_lower |}.

(** Counterexample to C6: both views re-raise an exception that is not an
    instance of [Exception] ([KeyboardInterrupt], [SystemExit],
    [GeneratorExit]), since their handlers are [except Exception]. *)
Example views_reraise_KeyboardInterrupt_counterexample :
  ai_simple_chat interrupted_request = Raise KeyboardInterrupt /\
  chat_start interrupted_request = Raise KeyboardInterrupt.
Proof. split; reflexivity. Qed.

(** C6 (amended): when every step of the request handling either succeeds
    or raises an instance of [Exception], [ai_simple_chat] and [chat_start]
    both return a JSON response; and any exception escaping the body of
    [chat_start] is an [Exception] turned by its outermost handler into a
    JSON body with [success] false, [error] [str(e)], the generic message
    'Failed to start chat session' and HTTP status 500. *)
Theorem views_catch_Exception (rq : Request) :
  request_raises_only_Exception rq ->
  (exists r, ai_simple_chat rq = Ok r) /\
  (exists r, chat_start rq = Ok r) /\
  (forall e, chat_start_body rq = Raise e ->
     is_Exception e = true /\
     chat_start rq = Ok (mkJsonResponse 500
       [("success", JBool false); ("error", JStr (exc_str e));
        ("response", JStr "Failed to start chat session")])).
Proof.
  intros H.
  pose proof (ai_simple_chat_body_ok_or_Exception rq H) as Ha.
  pose proof (chat_start_body_ok_or_Exception rq H) as Hc.
  split; [| split].
  - apply try_except_Exception_total; [exact Ha |].
    intros e _. eexists. reflexivity.
  - apply try_except_Exception_total; [exact Hc |].
    intros e _. eexists. reflexivity.
  - intros e He. rewrite He in Hc. simpl in Hc. split; [exact Hc |].
    unfold chat_start. rewrite He. simpl. rewrite Hc. reflexivity.
Qed.

(** A request whose chat-service call fails with a [DatabaseError] and
    whose timestamp formatting then fails with a [ValueError]. *)
Definition failing_service_request : Request :=
  {| rq_method := Ok "POST"; rq_json := Ok tt; rq_message := Ok "hello";
     rq_context := Ok tt; rq_username := Ok "alice";
     rq_user := Ok None; rq_now := Raise ValueError;
     rq_create_session := Raise DatabaseError; rq_history := Ok tt;
     has_chat_service := true; lower := ascii_lower |}.

Lemma views_catch_Exception_witness :
  request_raises_only_Exception failing_service_request /\
  chat_start_body failing_service_request = Raise ValueError /\
  chat_start failing_service_request =
    Ok (mkJsonResponse 500
       [("success", JBool false); ("error", JStr "ValueError");
        ("response", JStr "Failed to start chat session")]).
Proof.
  assert (H : request_raises_only_Exception failing_service_request)
    by (repeat split; simpl; exact I || reflexivity).
  assert (Hb : chat_start_body failing_service_request = Raise ValueError)
    by reflexivity.
  split; [exact H | split; [exact Hb |]].
  exact (proj2 (proj2 (proj2 (views_catch_Exception failing_service_request H)) ValueError Hb)).
Defined.

End ViewsFacts.


Module StockFacts.
Import Inventory StockChecks.
Local Open Scope Z_scope.

(** [reserve_stock(n)] succeeds exactly when [can_fulfill_order(n)] holds,
    and [is_in_stock()] is [can_fulfill_order(1)]. *)
Theorem reserve_stock_agrees_with_can_fulfill_order (p : Product) (n : Z) :
  fst (reserve_stock p n) = can_fulfill_order p n /\
  is_in_stock p = can_fulfill_order p 1.
Proof.
  unfold reserve_stock, can_fulfill_order, is_in_stock.
  destruct (is_track_inventory p), (allow_backorder p); simpl; try (split; reflexivity).
  set (a := get_available_quantity p). rewrite !Z.geb_leb, Z.gtb_ltb.
  split.
  - destruct (Z.ltb_spec a n), (Z.leb_spec n a); simpl; try reflexivity; lia.
  - destruct (Z.ltb_spec 0 a), (Z.leb_spec 1 a); try reflexivity; lia.
Qed.

(** [commit_stock(n)] moves [n] units from [quantity] to [purchase_count]
    and releases [n] reserved units: the sum of stock and sales, the
    difference between stock and reservations (hence the available
    quantity) and the configuration fields are unchanged, and
    [last_restocked] is stamped exactly when the new quantity is at most the
    low-stock threshold. *)
Theorem commit_stock_moves_units (now : Z) (p : Product) (n : Z) :
  is_track_inventory p = true ->
  let p' := commit_stock now p n in
  quantity p' + purchase_count p' = quantity p + purchase_count p /\
  quantity p' - reservation_count p' = quantity p - reservation_count p /\
  get_available_quantity p' = get_available_quantity p /\
  low_stock_threshold p' = low_stock_threshold p /\
  is_track_inventory p' = is_track_inventory p /\
  allow_backorder p' = allow_backorder p /\
  last_restocked p' = (if quantity p - n <=? low_stock_threshold p
                       then Some now else last_restocked p).
Proof.
  intros Ht. unfold commit_stock, get_available_quantity. rewrite Ht. simpl.
  repeat split; lia.
Qed.

Lemma commit_stock_moves_units_witness :
  is_track_inventory (mkProduct 10 4 2 5 true false None) = true /\
  quantity (commit_stock 7 (mkProduct 10 4 2 5 true false None) 3) +
  purchase_count (commit_stock 7 (mkProduct 10 4 2 5 true false None) 3) = 10 + 2.
Proof.
  split; [reflexivity |].
  exact (proj1 (commit_stock_moves_units 7 (mkProduct 10 4 2 5 true false None) 3
                  eq_refl)).
Defined.

(** A successful [reserve_stock(n)] followed by [commit_stock(n)] (the cart
    then payment path) leaves [reservation_count] where it started, lowers
    [quantity] by [n] and raises [purchase_count] by [n]. *)
Theorem reserve_then_commit (now : Z) (p : Product) (n : Z) :
  is_track_inventory p = true ->
  fst (reserve_stock p n) = true ->
  let p' := commit_stock now (snd (reserve_stock p n)) n in
  reservation_count p' = reservation_count p /\
  quantity p' = quantity p - n /\
  purchase_count p' = purchase_count p + n.
Proof.
  intros Ht Hok. unfold reserve_stock in *. rewrite Ht in *. simpl in *.
  destruct (negb (allow_backorder p) && (get_available_quantity p <? n)) eqn:E;
    simpl in *; [discriminate |].
  unfold commit_stock, set_reservation_count. simpl. rewrite Ht. simpl.
  repeat split; lia.
Qed.

Lemma reserve_then_commit_witness :
  is_track_inventory (mkProduct 10 4 2 5 true false None) = true /\
  fst (reserve_stock (mkProduct 10 4 2 5 true false None) 3) = true /\
  reservation_count (commit_stock 7 (snd (reserve_stock (mkProduct 10 4 2 5 true false None) 3)) 3) = 4.
Proof.
  split; [reflexivity | split; [reflexivity |]].
  exact (proj1 (reserve_then_commit 7 (mkProduct 10 4 2 5 true false None) 3
                  eq_refl eq_refl)).
Defined.

(** A product that does not track inventory is never modified by the stock
    methods, and always reports that it is in stock and can fulfil any
    order. *)
Theorem untracked_product_unchanged (now : Z) (p : Product) (n : Z) :
  is_track_inventory p = false ->
  reserve_stock p n = (true, p) /\ release_stock p n = p /\
  commit_stock now p n = p /\ is_in_stock p = true /\ can_fulfill_order p n = true.
Proof.
  intros Ht. unfold reserve_stock, release_stock, commit_stock, is_in_stock,
    can_fulfill_order. rewrite Ht. repeat split.
Qed.

Lemma untracked_product_unchanged_witness :
  is_track_inventory (mkProduct 0 3 0 5 false false None) = false /\
  release_stock (mkProduct 0 3 0 5 false false None) 2 = mkProduct 0 3 0 5 false false None.
Proof.
  split; [reflexivity |].
  exact (proj1 (proj2 (untracked_product_unchanged 1 (mkProduct 0 3 0 5 false false None) 2
                         eq_refl))).
Defined.

End StockFacts.


Module CatalogFacts.
Import Py Catalog.
Local Open Scope Z_scope.

(** The instance [Product.save()] leaves, as a function, when the quantity
    is the [int] [q]. *)
Definition save_rules (now : Z) (d : string) (q : Z) (p : Instance) : Instance :=
  let '(st, av) :=
    if is_track_inventory p && (q <=? 0) && negb (allow_backorder p)
    then ("out_of_stock", false)
    else if String.eqb (status p) "out_of_stock" && (0 <? q) then ("active", true)
    else (status p, is_available p) in
  mkProductFields
    (if truthy (sku p) then sku p else Some ("PROD-" ++ d)%string)
    (quantity p) (is_track_inventory p) (allow_backorder p) st av
    (if String.eqb st "active" && negb (bool_decide (is_Some (published_at p)))
     then Some now else published_at p)
    (last_restocked p) (Some now).

(** The row a full save writes for an instance whose quantity is [q]. *)
Definition row_of (s : Instance) (q : Z) : Row :=
  mkProductFields (sku s) q (is_track_inventory s) (allow_backorder s)
    (status s) (is_available s) (published_at s) (last_restocked s) (updated_at s).

Lemma Product_save_rules (now : Z) (d : string) (p : Instance) (row : option Row) (q : Z) :
  quantity p = PyInt q ->
  Product_save now d None p row = Ok (save_rules now d q p, row_of (save_rules now d q p) q).
Proof.
  intros Hq. destruct p as [sk q0 tr bo st av pub lr up]; simpl in Hq; subst q0.
  unfold Product_save, save_rules, model_write, row_of; cbn.
  destruct (truthy sk); cbn; destruct tr, bo; cbn;
    destruct (q <=? 0), (String.eqb st "out_of_stock"), (0 <? q), pub; cbn;
    destruct (String.eqb st "active"); cbn;
    destruct row; reflexivity.
Qed.

Lemma save_rules_quantity now d q p : quantity (save_rules now d q p) = quantity p.
Proof.
  unfold save_rules. repeat case_match; reflexivity.
Qed.

Lemma save_rules_idempotent now d d' q p :
  save_rules now d' q (save_rules now d q p) = save_rules now d q p.
Proof.
  destruct p as [sk q0 tr bo st av pub lr up]. unfold save_rules; cbn.
  destruct (truthy sk) eqn:Es, tr, bo, (q <=? 0), (0 <? q),
    (String.eqb st "out_of_stock") eqn:E1; cbn; rewrite ?Es, ?E1; cbn;
    destruct (String.eqb st "active"), pub; cbn; reflexivity.
Qed.


(** Saving again an instance that [Product.save()] has just saved, at the
    same clock, writes the same row and leaves the instance as it was. *)
Theorem Product_save_idempotent (now : Z) (d d' : string) (self s : Instance)
    (row : option Row) (r' : Row) (q : Z) :
  quantity self = PyInt q ->
  Product_save now d None self row = Ok (s, r') ->
  Product_save now d' None s (Some r') = Ok (s, r').
Proof.
  intros Hq H. rewrite (Product_save_rules now d self row q Hq) in H.
  injection H as <- <-.
  rewrite (Product_save_rules now d' _ _ q); [| rewrite save_rules_quantity; exact Hq].
  rewrite save_rules_idempotent. reflexivity.
Qed.

(** [restock(n)] raises [TypeError] whenever the product tracks inventory
    or is ['out_of_stock']: it compares the expression
    [F('quantity') + n] with [0], directly or in [Product.save].  The
    atomic block then leaves the row unchanged.  Otherwise it adds [n] to
    [quantity], stamps [last_restocked] and writes nothing else. *)
Theorem restock_outcome (now : Z) (d : string) (r : Row) (n : Z) :
  restock now d (Some r) n =
    if is_track_inventory r || String.eqb (status r) "out_of_stock"
    then (Raise TypeError, Some r)
    else (Ok tt, Some (mkProductFields (sku r) (quantity r + n) (is_track_inventory r)
                        (allow_backorder r) (status r) (is_available r)
                        (published_at r) (Some now) (updated_at r))).
Proof.
  destruct r as [sk q tr bo st av pub lr up].
  unfold restock, from_db, set_quantity, set_last_restocked; cbn.
  destruct (String.eqb st "out_of_stock") eqn:E1; cbn; [destruct tr; reflexivity |].
  unfold Product_save; cbn.
  destruct (truthy sk); cbn; destruct tr; cbn; try reflexivity;
    rewrite ?E1; cbn; destruct (String.eqb st "active"), pub; cbn;
    reflexivity.
Qed.

Definition draft_instance : Instance :=
  mkProductFields None (PyInt 0) true false "active" true None None None.

Definition saved_instance : Instance :=
  mkProductFields (Some "PROD-AB12CD34") (PyInt 0) true false "out_of_stock" false
    None None (Some 5).

Definition saved_row : Row :=
  mkProductFields (Some "PROD-AB12CD34") 0 true false "out_of_stock" false
    None None (Some 5).


Lemma Product_save_idempotent_witness :
  quantity draft_instance = PyInt 0 /\
  Product_save 5 "AB12CD34" None draft_instance None = Ok (saved_instance, saved_row) /\
  Product_save 5 "ZZ99ZZ99" None saved_instance (Some saved_row) =
    Ok (saved_instance, saved_row).
Proof.
  split; [reflexivity |]. split; [vm_compute; reflexivity |].
  apply (Product_save_idempotent 5 "AB12CD34" "ZZ99ZZ99" draft_instance saved_instance
           None saved_row 0); [reflexivity | vm_compute; reflexivity].
Defined.
End CatalogFacts.


Module CartSaveFacts.
Import Py Inventory StockChecks Carts CartSave.
Local Open Scope Z_scope.

Lemma set_reservation_count_same (p : Product) :
  set_reservation_count p (reservation_count p) = p.
Proof. destruct p; reflexivity. Qed.

(** Updating the quantity of a cart item on a tracked product from [old] to
    [q'] changes that product's [reservation_count] by exactly [q' - old]
    and no other product: on success, and also when the row write then
    fails with [IntegrityError] (no transaction undoes the stock call).  A
    [ValidationError] (not enough stock for the increase) leaves the
    database unchanged. *)
Theorem CartItem_save_update_reservation (next_pk k cart product q' : Z) (db : DB)
    (old : CartItem) (p : Product) :
  products db !! product = Some p ->
  is_track_inventory p = true ->
  find (fun x => ci_pk x =? k) (cart_items db) = Some old ->
  let '(r, db') := CartItem_save next_pk (Some k) cart product q' db in
  match r with
  | inl (ValidationError _) => db' = db
  | _ => products db' =
           <[product := set_reservation_count p (reservation_count p + (q' - ci_quantity old))]>
             (products db)
  end.
Proof.
  intros Hp Ht Hf. unfold CartItem_save. rewrite Hp, Hf.
  destruct (Z.ltb_spec 0 (q' - ci_quantity old)).
  - unfold reserve_stock. rewrite Ht. simpl.
    destruct (negb (allow_backorder p) && (get_available_quantity p <? q' - ci_quantity old));
      simpl; [reflexivity |].
    unfold update_row; destruct (unique_ok _ _); reflexivity.
  - destruct (Z.ltb_spec (q' - ci_quantity old) 0).
    + unfold release_stock. rewrite Ht. simpl.
      replace (reservation_count p - Z.abs (q' - ci_quantity old))
        with (reservation_count p + (q' - ci_quantity old)) by lia.
      unfold update_row; destruct (unique_ok _ _); reflexivity.
    + replace (reservation_count p + (q' - ci_quantity old)) with (reservation_count p) by lia.
      rewrite set_reservation_count_same, insert_id by exact Hp.
      unfold update_row; destruct (unique_ok _ _); reflexivity.
Qed.

Lemma update_row_ok (db : DB) (it : CartItem) :
  unique_ok db it = true -> fst (update_row db it) = inr it.
Proof. unfold update_row. intros ->. reflexivity. Qed.

Lemma unique_ok_set_product (db : DB) (k : Z) (p : Product) (it : CartItem) :
  unique_ok (set_product db k p) it = unique_ok db it.
Proof. reflexivity. Qed.

Lemma unique_ok_quantity (db : DB) (it : CartItem) (q : Z) :
  unique_ok db (mkCartItem (ci_pk it) (ci_cart it) (ci_product it) q) = unique_ok db it.
Proof. reflexivity. Qed.

Lemma filter_pk_fresh (items : list CartItem) (k : Z) :
  Forall (fun x => ci_pk x <> k) items ->
  filter (fun x => negb (ci_pk x =? k)) items = items.
Proof.
  induction 1 as [|x l Hx Hl IH]; [reflexivity |].
  rewrite filter_cons_True; [rewrite IH; reflexivity |].
  apply Z.eqb_neq in Hx. rewrite Hx. exact I.
Qed.

Lemma filter_pk_self (k c pr q : Z) :
  filter (fun x => negb (ci_pk x =? k)) [mkCartItem k c pr q] = [].
Proof.
  rewrite filter_cons_False; [apply filter_nil |]. rewrite Z.eqb_refl. simpl. tauto.
Qed.

Definition conservative_product : Product := mkProduct 6 5 0 5 true false None.
Definition conservative_item : CartItem := mkCartItem 1 1 1 5.
Definition conservative_db : DB :=
  mkDB [conservative_item] {[1 := conservative_product]}.

(** [can_be_added(k)] is a conservative check: when it answers [True] for
    an item stored as it is in memory, with a non-negative quantity and a
    unique (cart, product) pair, saving the item with quantity
    [quantity + k] succeeds.  The converse fails: the check counts the
    item's own quantity, already reserved, a second time, so it can refuse
    an increase that [save] accepts. *)
Theorem can_be_added_conservative :
  (forall (next_pk : Z) (db : DB) (it : CartItem) (k : Z) (p : Product),
     products db !! ci_product it = Some p ->
     find (fun x => ci_pk x =? ci_pk it) (cart_items db) = Some it ->
     unique_ok db it = true ->
     0 <= ci_quantity it ->
     can_be_added it k db = Ok true ->
     exists it', fst (CartItem_save next_pk (Some (ci_pk it)) (ci_cart it) (ci_product it)
                        (ci_quantity it + k) db) = inr it') /\
  (can_be_added conservative_item 1 conservative_db = Ok false /\
   exists it', fst (CartItem_save 0 (Some 1) 1 1 (ci_quantity conservative_item + 1)
                     conservative_db) = inr it').
Proof.
  split.
  - intros next_pk db it k p Hp Hf Hu Hq Hc.
    unfold can_be_added in Hc. rewrite Hp in Hc.
    unfold CartItem_save. rewrite Hp, Hf.
    replace (ci_quantity it + k - ci_quantity it) with k by lia.
    eexists.
    destruct (Z.ltb_spec 0 k).
    + unfold reserve_stock.
      destruct (is_track_inventory p) eqn:Ht; simpl in Hc |- *.
      * unfold can_fulfill_order in Hc. rewrite Ht in Hc. simpl in Hc.
        destruct (allow_backorder p); simpl in Hc |- *.
        -- rewrite update_row_ok; [reflexivity |].
           rewrite unique_ok_set_product, unique_ok_quantity. exact Hu.
        -- injection Hc as Hc. apply Z.geb_le in Hc.
           destruct (Z.ltb_spec (get_available_quantity p) k); [lia |]. simpl.
           rewrite update_row_ok; [reflexivity |].
           rewrite unique_ok_set_product, unique_ok_quantity. exact Hu.
      * rewrite update_row_ok; [reflexivity |].
        rewrite unique_ok_set_product, unique_ok_quantity. exact Hu.
    + destruct (Z.ltb_spec k 0).
      * rewrite update_row_ok; [reflexivity |].
        rewrite unique_ok_set_product, unique_ok_quantity. exact Hu.
      * rewrite update_row_ok; [reflexivity |].
        rewrite unique_ok_quantity. exact Hu.
  - split; [reflexivity |]. eexists. reflexivity.
Qed.

(** Adding a new item to a cart and then deleting it leaves the database
    exactly as before: the reservation [save] takes is released by
    [delete], for tracked and untracked products alike. *)
Theorem CartItem_save_delete_roundtrip (next_pk cart product q : Z) (db db1 : DB)
    (it : CartItem) :
  Forall (fun x => ci_pk x <> next_pk) (cart_items db) ->
  CartItem_save next_pk None cart product q db = (inr it, db1) ->
  CartItem_delete it db1 = (Ok tt, db).
Proof.
  intros Hfresh Hs. unfold CartItem_save in Hs.
  destruct (products db !! product) as [p|] eqn:Hp; [| discriminate].
  unfold reserve_stock in Hs.
  destruct (is_track_inventory p) eqn:Ht; simpl in Hs.
  - destruct (negb (allow_backorder p) && (get_available_quantity p <? q)); simpl in Hs;
      [discriminate |].
    unfold insert_row in Hs. destruct (unique_ok _ _); [| discriminate].
    injection Hs as <- <-. unfold CartItem_delete. simpl.
    rewrite lookup_insert_eq. simpl. unfold release_stock. simpl. rewrite Ht. simpl.
    rewrite insert_insert_eq.
    match goal with |- context [<[product := ?X]> _] =>
      assert (HX : X = p) by (unfold set_reservation_count; destruct p; simpl; f_equal; lia);
      rewrite HX
    end.
    rewrite insert_id by exact Hp.
    destruct db as [items prods]. simpl in *. f_equal. f_equal.
    rewrite filter_app, filter_pk_self, app_nil_r. exact (filter_pk_fresh items next_pk Hfresh).
  - unfold insert_row in Hs. destruct (unique_ok _ _); [| discriminate].
    injection Hs as <- <-. unfold CartItem_delete. simpl.
    rewrite insert_id by exact Hp. rewrite Hp. rewrite Ht.
    destruct db as [items prods]. simpl in *. f_equal. f_equal.
    rewrite filter_app, filter_pk_self, app_nil_r. exact (filter_pk_fresh items next_pk Hfresh).
Qed.


Lemma CartItem_save_update_reservation_witness :
  (products conservative_db !! 1 = Some conservative_product /\
  is_track_inventory conservative_product = true /\
  find (fun x => ci_pk x =? 1) (cart_items conservative_db) = Some conservative_item) /\
  (let '(r, db') := CartItem_save 0 (Some 1) 1 1 3 conservative_db in
  match r with
  | inl (ValidationError _) => db' = conservative_db
  | _ => products db' =
           <[1 := set_reservation_count conservative_product
                    (reservation_count conservative_product + (3 - ci_quantity conservative_item))]>
             (products conservative_db)
  end).
Proof.
  split; [split; [reflexivity | split; reflexivity] |].
  exact (CartItem_save_update_reservation 0 1 1 1 3 conservative_db conservative_item
           conservative_product eq_refl eq_refl eq_refl).
Defined.

Definition roundtrip_product : Product := mkProduct 10 0 0 5 true false None.

Definition roundtrip_db : DB := mkDB [] {[1 := roundtrip_product]}.

Definition roundtrip_item : CartItem := mkCartItem 7 1 1 2.

Definition roundtrip_db1 : DB :=
  mkDB [roundtrip_item] {[1 := mkProduct 10 2 0 5 true false None]}.

Lemma CartItem_save_delete_roundtrip_witness :
  (Forall (fun x => ci_pk x <> 7) (cart_items roundtrip_db) /\
  CartItem_save 7 None 1 1 2 roundtrip_db = (inr roundtrip_item, roundtrip_db1)) /\
  CartItem_delete roundtrip_item roundtrip_db1 = (Ok tt, roundtrip_db).
Proof.
  assert (H1 : Forall (fun x => ci_pk x <> 7) (cart_items roundtrip_db)) by constructor.
  assert (H2 : CartItem_save 7 None 1 1 2 roundtrip_db = (inr roundtrip_item, roundtrip_db1))
    by (vm_compute; reflexivity).
  split; [split; [exact H1 | exact H2] |].
  exact (CartItem_save_delete_roundtrip 7 1 1 2 roundtrip_db roundtrip_db1 roundtrip_item H1 H2).
Defined.

End CartSaveFacts.

Module DeletionFacts.
Import Py Inventory Orders OrderFacts Deletion.
Local Open Scope Z_scope.

(** [Order.save()] on an order that already has a primary key. *)
Lemma Order_save_existing (env : SaveEnv) (fuel : nat) (o : Order) (k : Z) :
  pk o = Some k ->
  Order_save env fuel o =
    Ok (model_save env (if String.eqb (order_number o) "" then
                          set_order_number o (gen_draw env 0) else o)).
Proof.
  intros Hpk. unfold Order_save. rewrite class_namespace_save. unfold save_v2.
  destruct (String.eqb (order_number o) ""); cbn; rewrite Hpk; reflexivity.
Qed.

(** Saving again, at the same clock, an order that [Order.save()] has just
    updated returns it unchanged: the order number is kept and
    [updated_at] already holds the clock value. *)
Theorem Order_save_idempotent (env : SaveEnv) (fuel : nat) (o o' : Order) (k : Z) :
  pk o = Some k ->
  Order_save env fuel o = Ok o' ->
  Order_save env fuel o' = Ok o'.
Proof.
  intros Hpk H. rewrite (Order_save_existing env fuel o k Hpk) in H.
  injection H as <-.
  destruct o as [pk0 num sc inv st sca ps pd mn mt up]; simpl in Hpk; subst pk0.
  unfold set_order_number, model_save; cbn.
  destruct (String.eqb num "") eqn:E; cbn.
  - rewrite (Order_save_existing env fuel _ k); [cbn | reflexivity].
    destruct (String.eqb (gen_draw env 0) "") eqn:E2; cbn; [|reflexivity].
    apply String.eqb_eq in E2. rewrite E2. reflexivity.
  - rewrite (Order_save_existing env fuel _ k); [cbn | reflexivity]. rewrite E. reflexivity.
Qed.

(** Whether the products table marks product [pid] as tracked. *)
Definition tracked (products : gmap Z Product) (pid : Z) : bool :=
  match products !! pid with
  | Some p => is_track_inventory p
  | None => false
  end.

(** An order item after [restore_stock]: cancelled when it was, or when its
    product tracks inventory. *)
Definition restored_item (products : gmap Z Product) (it : OrderItem) : OrderItem :=
  mkOrderItem (item_product it) (item_quantity it)
    (is_cancelled it || tracked products (item_product it)).

(** How [approve_deletion] changes the row [p] of product [pid] into [p']:
    a tracked product gets back in [reservation_count] the quantities of
    the non-cancelled items on it; nothing else changes. *)
Definition released_row (items : list OrderItem) (pid : Z) (p p' : Product) : Prop :=
  let s := if is_track_inventory p then committed_units items pid else 0 in
  is_track_inventory p' = is_track_inventory p /\
  quantity p' = quantity p /\
  reservation_count p' = reservation_count p - s /\
  purchase_count p' = purchase_count p.

Lemma release_stock_track (p : Product) (n : Z) :
  is_track_inventory (release_stock p n) = is_track_inventory p.
Proof. unfold release_stock. destruct (is_track_inventory p) eqn:E; simpl; auto. Qed.

Lemma restore_step (env : SaveEnv) (fuel : nat) (o : Order)
    (products : gmap Z Product) (it : OrderItem) (p : Product) :
  Order_save env fuel o = Ok o ->
  products !! item_product it = Some p ->
  exists products1,
    OrderItem_restore_stock env fuel o products it = Ok (o, products1, restored_item products it) /\
    (forall pid, is_track_inventory <$> products1 !! pid = is_track_inventory <$> products !! pid) /\
    (forall pid p0, products !! pid = Some p0 ->
       exists p1, products1 !! pid = Some p1 /\
         is_track_inventory p1 = is_track_inventory p0 /\
         quantity p1 = quantity p0 /\ purchase_count p1 = purchase_count p0 /\
         reservation_count p1 = reservation_count p0 -
           (if is_track_inventory p0 && (item_product it =? pid) && negb (is_cancelled it)
            then item_quantity it else 0)).
Proof.
  intros Hs Hp. unfold OrderItem_restore_stock, restored_item, tracked. rewrite Hp.
  destruct (is_track_inventory p && negb (is_cancelled it)) eqn:Ec.
  - apply andb_prop in Ec as [Et Ecn]. rewrite Hs. cbn. rewrite Et, orb_true_r.
    eexists. split; [reflexivity|]. split.
    + intros pid. destruct (decide (item_product it = pid)) as [<-|Hne].
      * rewrite lookup_insert_eq, Hp. simpl. rewrite release_stock_track. reflexivity.
      * rewrite lookup_insert_ne by exact Hne. reflexivity.
    + intros pid p0 Hp0. destruct (decide (item_product it = pid)) as [<-|Hne].
      * rewrite Hp in Hp0. injection Hp0 as <-. rewrite lookup_insert_eq.
        eexists. split; [reflexivity|].
        unfold release_stock. rewrite Et, Z.eqb_refl, Ecn. simpl. repeat split; first [exact Et | lia].
      * rewrite lookup_insert_ne by exact Hne. exists p0. split; [exact Hp0|].
        assert (E : (item_product it =? pid) = false) by (apply Z.eqb_neq; exact Hne).
        rewrite E, andb_false_r. simpl. repeat split; lia.
  - assert (Eit : mkOrderItem (item_product it) (item_quantity it)
                    (is_cancelled it || is_track_inventory p) = it).
    { destruct it as [ip iq ic]; simpl in *.
      destruct ic, (is_track_inventory p); simpl in *; congruence. }
    rewrite Eit. eexists. split; [reflexivity|]. split; [reflexivity|].
    intros pid p0 Hp0. exists p0. split; [exact Hp0|].
    destruct (decide (item_product it = pid)) as [<-|Hne].
    + rewrite Hp in Hp0. injection Hp0 as <-. rewrite Z.eqb_refl, andb_true_r, Ec.
      repeat split; lia.
    + assert (E : (item_product it =? pid) = false) by (apply Z.eqb_neq; exact Hne).
      rewrite E, andb_false_r. simpl. repeat split; lia.
Qed.

Lemma tracked_same (products products1 : gmap Z Product) :
  (forall pid, is_track_inventory <$> products1 !! pid = is_track_inventory <$> products !! pid) ->
  forall pid, tracked products1 pid = tracked products pid.
Proof.
  intros H pid. specialize (H pid). unfold tracked.
  destruct (products1 !! pid), (products !! pid); simpl in *; congruence.
Qed.

Lemma restore_items_effect (env : SaveEnv) (fuel : nat) (o : Order)
    (products : gmap Z Product) (items : list OrderItem) :
  Order_save env fuel o = Ok o ->
  Forall (fun it => is_Some (products !! item_product it)) items ->
  exists products',
    restore_items env fuel o products items =
      Ok (o, products', map (restored_item products) items) /\
    (forall pid, is_track_inventory <$> products' !! pid = is_track_inventory <$> products !! pid) /\
    (forall pid p, products !! pid = Some p ->
       exists p', products' !! pid = Some p' /\ released_row items pid p p').
Proof.
  intros Hs. revert products. induction items as [|it rest IH]; intros products Hall.
  - exists products. split; [reflexivity|]. split; [reflexivity|].
    intros pid p Hp. exists p. split; [exact Hp|].
    unfold released_row; simpl. destruct (is_track_inventory p); repeat split; lia.
  - inversion Hall as [|? ? Hit Hrest]; subst. destruct Hit as [p0 Hp0].
    destruct (restore_step env fuel o products it p0 Hs Hp0)
      as (products1 & Hr1 & Ht1 & Hrow1).
    assert (Hrest1 : Forall (fun it => is_Some (products1 !! item_product it)) rest).
    { eapply Forall_impl; [exact Hrest|]. intros x [px Hx].
      specialize (Ht1 (item_product x)). rewrite Hx in Ht1.
      destruct (products1 !! item_product x); [eauto | discriminate]. }
    destruct (IH products1 Hrest1) as (products' & Hr' & Ht' & Hrow').
    exists products'. simpl. rewrite Hr1. cbn. rewrite Hr'. cbn.
    split.
    + f_equal. f_equal. f_equal. apply map_ext. intros x. unfold restored_item.
      rewrite (tracked_same products products1 Ht1). reflexivity.
    + split; [intros pid; rewrite Ht', Ht1; reflexivity|].
      intros pid p Hp.
      destruct (Hrow1 pid p Hp) as (p1 & Hp1 & Htr1 & Hq1 & Hpc1 & Hr1').
      destruct (Hrow' pid p1 Hp1) as (p' & Hp' & Htr' & Hq' & Hr'' & Hpc').
      exists p'. split; [exact Hp'|].
      unfold released_row in *. simpl. rewrite Htr1 in Hr''.
      split; [congruence|].
      destruct (is_track_inventory p); simpl in *;
        destruct ((item_product it =? pid) && negb (is_cancelled it)); simpl in *;
        repeat split; lia.
Qed.

Lemma set_status_pk (o : Order) (s : string) : pk (set_status o s) = pk o.
Proof. reflexivity. Qed.

Lemma approve_deletion_effect (env : SaveEnv) (fuel : nat) (o : Order)
    (items : list OrderItem) (products : gmap Z Product) (approved_by k : Z) :
  pk o = Some k ->
  Forall (fun it => is_Some (products !! item_product it)) items ->
  exists o' products',
    approve_deletion env fuel o items products approved_by =
      Ok (o', mkDeletionApproval true (Some approved_by) (Some (env_now env)),
          products', map (restored_item products) items) /\
    Order_save env fuel o' = Ok o' /\
    pk o' = Some k /\ status o' = "cancelled" /\ updated_at o' = Some (env_now env) /\
    (forall pid, is_track_inventory <$> products' !! pid = is_track_inventory <$> products !! pid) /\
    (forall pid p, products !! pid = Some p ->
       exists p', products' !! pid = Some p' /\ released_row items pid p p').
Proof.
  intros Hpk Hall.
  assert (Hpk1 : pk (set_status o "cancelled") = Some k) by exact Hpk.
  assert (Hex : exists o2, Order_save env fuel (set_status o "cancelled") = Ok o2)
    by (eexists; exact (Order_save_existing env fuel _ k Hpk1)).
  destruct Hex as [o2 Hs1].
  pose proof (Order_save_idempotent env fuel _ o2 k Hpk1 Hs1) as Hs2.
  destruct (restore_items_effect env fuel o2 products items Hs2 Hall)
    as (products' & Hr & Ht & Hrow).
  exists o2, products'. unfold approve_deletion. rewrite Hs1. cbn. rewrite Hr. cbn.
  split; [reflexivity|]. split; [exact Hs2|].
  rewrite (Order_save_existing env fuel _ k Hpk1) in Hs1. injection Hs1 as <-.
  unfold model_save, set_order_number, set_status. rewrite Hpk.
  destruct (String.eqb (order_number o) ""); cbn;
    (split; [reflexivity|]); (split; [reflexivity|]); (split; [reflexivity|]);
    (split; [exact Ht | exact Hrow]).
Qed.

Lemma restore_items_noop (env : SaveEnv) (fuel : nat) (o : Order)
    (products : gmap Z Product) (items : list OrderItem) :
  Order_save env fuel o = Ok o ->
  Forall (fun it => exists p, products !! item_product it = Some p /\
                              is_track_inventory p && negb (is_cancelled it) = false) items ->
  restore_items env fuel o products items = Ok (o, products, items).
Proof.
  intros Hs. induction items as [|it rest IH]; intros Hall; [reflexivity|].
  inversion Hall as [|? ? (p & Hp & Hc) Hrest]; subst.
  simpl. unfold OrderItem_restore_stock. rewrite Hp, Hc. cbn.
  rewrite (IH Hrest). reflexivity.
Qed.

Lemma mark_as_paid_effect (env : SaveEnv) (fuel : nat) (o : Order)
    (items : list OrderItem) (products : gmap Z Product)
    (momo txid : option string) (k : Z) :
  pk o = Some k ->
  Forall (fun it => is_Some (products !! item_product it)) items ->
  exists o1 products1,
    mark_as_paid env fuel o items products momo txid = Ok (o1, products1) /\
    pk o1 = Some k /\
    (forall pid, is_Some (products !! pid) -> is_Some (products1 !! pid)) /\
    (forall pid p, products !! pid = Some p ->
       exists p1, products1 !! pid = Some p1 /\ committed_row items pid p p1).
Proof.
  intros Hpk Hall.
  destruct (commit_items_effect (env_now env) items products Hall)
    as (products1 & Hc & Hdom & Hrow).
  unfold mark_as_paid, Order_save. rewrite class_namespace_save.
  unfold save_v2. simpl. rewrite Hpk.
  destruct (String.eqb (order_number o) ""); simpl; rewrite Hc; simpl;
    eexists _, products1; (split; [reflexivity|]); simpl; rewrite ?Hpk;
    (split; [reflexivity|]); (split; [exact Hdom | exact Hrow]).
Qed.

(** [approve_deletion] on a saved order whose items all point at existing
    products returns normally: the order is saved with status
    ['cancelled'], the approval fields are set (approved, by whom, now),
    every item whose product tracks inventory ends cancelled, and each
    tracked product gets back in [reservation_count] the quantities of the
    order's items on it that were not yet cancelled; [quantity] and
    [purchase_count] never change. *)
Theorem approve_deletion_releases (env : SaveEnv) (fuel : nat) (o : Order)
    (items : list OrderItem) (products : gmap Z Product) (approved_by k : Z) :
  pk o = Some k ->
  Forall (fun it => is_Some (products !! item_product it)) items ->
  exists o' products',
    approve_deletion env fuel o items products approved_by =
      Ok (o', mkDeletionApproval true (Some approved_by) (Some (env_now env)),
          products', map (restored_item products) items) /\
    status o' = "cancelled" /\
    (forall pid p, products !! pid = Some p ->
       exists p', products' !! pid = Some p' /\ released_row items pid p p').
Proof.
  intros Hpk Hall.
  destruct (approve_deletion_effect env fuel o items products approved_by k Hpk Hall)
    as (o' & products' & Ha & _ & _ & Hst & _ & _ & Hrow).
  exists o', products'. split; [exact Ha|]. split; [exact Hst | exact Hrow].
Qed.

(** Approving the deletion a second time, on the order, items and products
    the first approval left, releases nothing more: products, items and
    the saved order stay as they are, only the approval fields are written
    again. *)
Theorem approve_deletion_twice (env : SaveEnv) (fuel : nat) (o o' : Order)
    (items items' : list OrderItem) (products products' : gmap Z Product)
    (a a' k : Z) (approval : DeletionApproval) :
  pk o = Some k ->
  Forall (fun it => is_Some (products !! item_product it)) items ->
  approve_deletion env fuel o items products a = Ok (o', approval, products', items') ->
  approve_deletion env fuel o' items' products' a' =
    Ok (o', mkDeletionApproval true (Some a') (Some (env_now env)), products', items').
Proof.
  intros Hpk Hall H.
  destruct (approve_deletion_effect env fuel o items products a k Hpk Hall)
    as (o2 & products2 & Ha & Hs & Hpk2 & Hst & Hup & Ht & _).
  rewrite Ha in H. injection H as <- _ <- <-.
  assert (Eo : set_status o2 "cancelled" = o2).
  { destruct o2; simpl in *; subst; reflexivity. }
  unfold approve_deletion. rewrite Eo, Hs. cbn.
  rewrite restore_items_noop; [reflexivity | exact Hs |].
  apply Forall_map. eapply Forall_impl; [exact Hall|]. intros it [p Hp].
  specialize (Ht (item_product it)). rewrite Hp in Ht.
  destruct (products2 !! item_product it) as [p2|] eqn:Hp2; [|discriminate].
  exists p2. split; [exact Hp2|]. simpl in Ht. injection Ht as Ht.
  unfold restored_item, tracked. simpl. rewrite Hp, Ht.
  destruct (is_track_inventory p), (is_cancelled it); reflexivity.
Qed.

(** Deleting an order after it was paid: [mark_as_paid] then
    [approve_deletion] leaves each tracked product with [quantity] still
    lowered by the units sold (the stock is never given back) and
    [reservation_count] lowered twice by them, once by [commit_stock] and
    once by [release_stock]; [purchase_count] keeps the sale. *)
Theorem paid_then_deleted (env : SaveEnv) (fuel : nat) (o : Order)
    (items : list OrderItem) (products : gmap Z Product)
    (momo txid : option string) (a k : Z) :
  pk o = Some k ->
  Forall (fun it => is_Some (products !! item_product it)) items ->
  exists o1 products1 o2 products2,
    mark_as_paid env fuel o items products momo txid = Ok (o1, products1) /\
    approve_deletion env fuel o1 items products1 a =
      Ok (o2, mkDeletionApproval true (Some a) (Some (env_now env)),
          products2, map (restored_item products1) items) /\
    (forall pid p, products !! pid = Some p -> is_track_inventory p = true ->
       exists p2, products2 !! pid = Some p2 /\
         quantity p2 = quantity p - committed_units items pid /\
         reservation_count p2 = reservation_count p - 2 * committed_units items pid /\
         purchase_count p2 = purchase_count p + committed_units items pid).
Proof.
  intros Hpk Hall.
  destruct (mark_as_paid_effect env fuel o items products momo txid k Hpk Hall)
    as (o1 & products1 & Hm & Hpk1 & Hdom & Hrow1).
  assert (Hall1 : Forall (fun it => is_Some (products1 !! item_product it)) items).
  { eapply Forall_impl; [exact Hall|]. intros x Hx. apply Hdom, Hx. }
  destruct (approve_deletion_effect env fuel o1 items products1 a k Hpk1 Hall1)
    as (o2 & products2 & Ha & _ & _ & _ & _ & _ & Hrow2).
  exists o1, products1, o2, products2. split; [exact Hm|]. split; [exact Ha|].
  intros pid p Hp Ht.
  destruct (Hrow1 pid p Hp) as (p1 & Hp1 & Ht1 & Hq1 & Hr1 & Hc1).
  destruct (Hrow2 pid p1 Hp1) as (p2 & Hp2 & Ht2 & Hq2 & Hr2 & Hc2).
  exists p2. split; [exact Hp2|]. rewrite Ht in Hq1, Hr1, Hc1.
  rewrite Ht1, Ht in Hr2. lia.
Qed.

Definition saved_order_example : Order :=
  mkOrder (Some 3) "ORD-20250101-CCCCCC" "" "" "pending" (Some 1) "pending"
    None None None (Some 1700000000).

Lemma Order_save_idempotent_witness :
  (pk paid_order_example = Some 3 /\
   Order_save save_env_example 0 paid_order_example = Ok saved_order_example) /\
  Order_save save_env_example 0 saved_order_example = Ok saved_order_example.
Proof.
  assert (H1 : pk paid_order_example = Some 3) by reflexivity.
  assert (H2 : Order_save save_env_example 0 paid_order_example = Ok saved_order_example)
    by (vm_compute; reflexivity).
  split; [split; [exact H1 | exact H2] |].
  exact (Order_save_idempotent save_env_example 0 paid_order_example saved_order_example 3 H1 H2).
Defined.

Lemma items_example_exist :
  Forall (fun it => is_Some (products_example !! item_product it)) items_example.
Proof. repeat constructor; vm_compute; eexists; reflexivity. Qed.

Lemma approve_deletion_releases_witness :
  (pk paid_order_example = Some 3 /\
   Forall (fun it => is_Some (products_example !! item_product it)) items_example) /\
  exists o' products',
    approve_deletion save_env_example 0 paid_order_example items_example products_example 9 =
      Ok (o', mkDeletionApproval true (Some 9) (Some (env_now save_env_example)),
          products', map (restored_item products_example) items_example) /\
    status o' = "cancelled" /\
    (forall pid p, products_example !! pid = Some p ->
       exists p', products' !! pid = Some p' /\ released_row items_example pid p p').
Proof.
  split; [split; [reflexivity | exact items_example_exist] |].
  exact (approve_deletion_releases save_env_example 0 paid_order_example items_example
           products_example 9 3 eq_refl items_example_exist).
Defined.

Definition deleted_order_example : Order :=
  mkOrder (Some 3) "ORD-20250101-CCCCCC" "" "" "cancelled" (Some 1) "pending"
    None None None (Some 1700000000).

Definition products_after_deletion : gmap Z Product :=
  <[1 := mkProduct 10 2 0 5 true false None]> products_example.

Definition items_after_deletion : list OrderItem :=
  [mkOrderItem 1 2 true; mkOrderItem 2 1 false; mkOrderItem 1 5 true].

Lemma approve_deletion_twice_witness :
  (pk paid_order_example = Some 3 /\
   Forall (fun it => is_Some (products_example !! item_product it)) items_example /\
   approve_deletion save_env_example 0 paid_order_example items_example products_example 9 =
     Ok (deleted_order_example, mkDeletionApproval true (Some 9) (Some 1700000000),
         products_after_deletion, items_after_deletion)) /\
  approve_deletion save_env_example 0 deleted_order_example items_after_deletion
    products_after_deletion 4 =
    Ok (deleted_order_example, mkDeletionApproval true (Some 4) (Some (env_now save_env_example)),
        products_after_deletion, items_after_deletion).
Proof.
  assert (H3 : approve_deletion save_env_example 0 paid_order_example items_example
                 products_example 9 =
               Ok (deleted_order_example, mkDeletionApproval true (Some 9) (Some 1700000000),
                   products_after_deletion, items_after_deletion))
    by (vm_compute; reflexivity).
  split; [split; [reflexivity | split; [exact items_example_exist | exact H3]] |].
  exact (approve_deletion_twice save_env_example 0 paid_order_example deleted_order_example
           items_example items_after_deletion products_example products_after_deletion
           9 4 3 _ eq_refl items_example_exist H3).
Defined.

Lemma paid_then_deleted_witness :
  (pk paid_order_example = Some 3 /\
   Forall (fun it => is_Some (products_example !! item_product it)) items_example) /\
  exists o1 products1 o2 products2,
    mark_as_paid save_env_example 0 paid_order_example items_example products_example
      None None = Ok (o1, products1) /\
    approve_deletion save_env_example 0 o1 items_example products1 9 =
      Ok (o2, mkDeletionApproval true (Some 9) (Some (env_now save_env_example)),
          products2, map (restored_item products1) items_example) /\
    (forall pid p, products_example !! pid = Some p -> is_track_inventory p = true ->
       exists p2, products2 !! pid = Some p2 /\
         quantity p2 = quantity p - committed_units items_example pid /\
         reservation_count p2 = reservation_count p - 2 * committed_units items_example pid /\
         purchase_count p2 = purchase_count p + committed_units items_example pid).
Proof.
  split; [split; [reflexivity | exact items_example_exist] |].
  exact (paid_then_deleted save_env_example 0 paid_order_example items_example
           products_example None None 9 3 eq_refl items_example_exist).
Defined.

End DeletionFacts.

Module ChatStateFacts.
Import PyStr Lang Chat.
Local Open Scope Z_scope.

(** The user [process_chat_message] works with: the [user] argument, else
    the user with primary key [user_id] (when it is given and not [0]). *)
Definition resolved_user (lookup_user : Z -> option string) (user : option string)
    (user_id : option Z) : option string :=
  match user with
  | Some u => Some u
  | None =>
      match user_id with
      | Some k => if Z.eqb k 0 then None else lookup_user k
      | None => None
      end
  end.

(** The key of the conversation entry and of the off-topic counter that
    [process_chat_message] uses. *)
Definition chat_sid (lower : string -> string) (lookup_user : Z -> option string)
    (message : string) (user : option string) (user_id : option Z) : string :=
  session_id (resolved_user lookup_user user user_id) user_id (detect_language lower message).

Lemma handle_vendor_query_keeps_history (lower : string -> string) (m : string) (c : ChatCtx) :
  history (snd (handle_vendor_query lower m c)) = history c /\
  In (fst (handle_vendor_query lower m c))
     ["business_report"; "order_update"; "stock_query"; "vendor_assistance"].
Proof.
  unfold handle_vendor_query. cbv beta zeta.
  repeat case_match; simpl; auto 10.
Qed.

Lemma handle_client_query_keeps_history (lower : string -> string)
    (re_split_vendor : string -> list string)
    (find_products : string -> option string -> nat) (m : string) (c : ChatCtx) :
  history (snd (handle_client_query lower re_split_vendor find_products m c)) = history c /\
  In (fst (handle_client_query lower re_split_vendor find_products m c))
     ["vendor_contact"; "shopping"; "no_results"; "general_assistance"].
Proof.
  destruct c as [h li vm pi]. unfold handle_client_query. cbv beta zeta.
  destruct (contains "from" (lower m) || contains "by" (lower m) ||
            contains "vendor" (lower m));
    [destruct (2 <? List.length (re_split_vendor (lower m)))%nat;
       [destruct ((1 <? String.length (strip (List.last (re_split_vendor (lower m)) "")))%nat &&
                  negb (existsb (String.eqb (strip (List.last (re_split_vendor (lower m)) "")))
                          ["sokhub"; "market"; "store"]))|]|].
  all: cbn [fst snd last_intent vendor_mentioned history product_interest set_last_intent].
  all: repeat (case_match; cbn [fst snd last_intent vendor_mentioned history set_last_intent]).
  all: simpl; auto 10.
Qed.

(** What one call of [process_chat_message] does to the two dictionaries:
    the entry of its session gets the user message and then the assistant
    reply, the counter of the session is updated in one of three ways, and
    nothing else changes. *)
Lemma process_chat_message_shape (lower : string -> string)
    (re_split_vendor : string -> list string)
    (find_products : string -> option string -> nat)
    (lookup_user : Z -> option string)
    (message : string) (user : option string) (user_id : option Z) (st : ChatState) :
  let sid := chat_sid lower lookup_user message user user_id in
  let ctx := push_history (match conversation_context st !! sid with
                           | Some c => c | None => empty_ctx end) ("user", message) in
  let otc := off_topic_count st in
  let count := match otc !! sid with Some n => n | None => 0 end + 1 in
  exists c i otc',
    process_chat_message lower re_split_vendor find_products lookup_user
      message user user_id st =
      (mkChatResult i (detect_language lower message),
       mkChatState (<[sid := push_history c ("assistant", i)]>
                      (<[sid := ctx]> (conversation_context st))) otc') /\
    history c = history ctx /\
    ((check_inappropriate_content lower message <> None /\
      i = "inappropriate_content" /\ otc' = otc) \/
     (check_inappropriate_content lower message = None /\
      is_business_related lower message = false /\ 3 <= count /\
      i = "redirect_to_business" /\ otc' = <[sid := 0]> otc) \/
     (check_inappropriate_content lower message = None /\
      (is_business_related lower message = true \/ count < 3) /\
      i <> "redirect_to_business" /\
      otc' = if negb (is_business_related lower message) then <[sid := count]> otc
             else if bool_decide (is_Some (otc !! sid)) then <[sid := 0]> otc
             else otc)).
Proof.
  unfold chat_sid, resolved_user, process_chat_message. cbv beta zeta.
  set (sid := session_id _ user_id _).
  set (ctx := push_history _ ("user", message)).
  set (lang := detect_language lower message).
  cbn [off_topic_count conversation_context].
  set (count := match off_topic_count st !! sid with Some n => n | None => 0 end + 1).
  destruct (check_inappropriate_content lower message) eqn:Ei.
  { eexists _, _, _. split; [reflexivity|]. split; [reflexivity|].
    left. split; [discriminate|]. split; reflexivity. }
  destruct (is_business_related lower message) eqn:Eb; cbn [negb andb].
  2: destruct (Z.leb_spec 3 count).
  2: { eexists _, _, _. split; [reflexivity|]. split; [reflexivity|].
       right; left. repeat split; auto. }
  all: destruct (existsb _ (GREETINGS lang));
    [ eexists _, _, _; split; [reflexivity|]; split; [reflexivity|];
      right; right; repeat split; auto; try discriminate |].
  all: destruct (any_in _ _);
    [ eexists _, _, _; split; [reflexivity|]; split; [reflexivity|];
      right; right; repeat split; auto; try discriminate |].
  all: eexists _, _, _; split; [reflexivity|].
  all: destruct (String.eqb _ "vendor");
    [ destruct (handle_vendor_query_keeps_history lower message ctx) as [Hh Hi]
    | destruct (handle_client_query_keeps_history lower re_split_vendor find_products
                  message ctx) as [Hh Hi] ].
  all: split; [exact Hh|]; right; right; repeat split; auto.
  all: intros He; rewrite He in Hi; simpl in Hi; intuition discriminate.
Qed.


(** The off-topic counters stay between 0 and 2: if every counter of the
    service state is in that range before a call of
    [process_chat_message], every counter is in it after. *)
Theorem off_topic_count_bounded (lower : string -> string)
    (re_split_vendor : string -> list string)
    (find_products : string -> option string -> nat)
    (lookup_user : Z -> option string)
    (message : string) (user : option string) (user_id : option Z) (st : ChatState) :
  (forall k n, off_topic_count st !! k = Some n -> 0 <= n <= 2) ->
  forall k n,
    off_topic_count (snd (process_chat_message lower re_split_vendor find_products
                            lookup_user message user user_id st)) !! k = Some n ->
    0 <= n <= 2.
Proof.
  intros Hb k n.
  pose proof (process_chat_message_shape lower re_split_vendor find_products lookup_user
                message user user_id st) as Hs.
  cbv zeta in Hs.
  destruct Hs as (c & i & otc' & He & _ & Hcase). rewrite He. cbn [snd off_topic_count].
  set (sid := chat_sid lower lookup_user message user user_id) in *.
  assert (Hold : 0 <= match off_topic_count st !! sid with Some n => n | None => 0 end <= 2).
  { destruct (off_topic_count st !! sid) eqn:E; [exact (Hb _ _ E) | lia]. }
  destruct Hcase as [(_ & _ & ->) | [(_ & _ & _ & _ & ->) | (_ & Hc & _ & ->)]].
  - apply Hb.
  - destruct (decide (k = sid)) as [->|Hk].
    + rewrite lookup_insert_eq. intros [= <-]. lia.
    + rewrite lookup_insert_ne by congruence. apply Hb.
  - destruct (is_business_related lower message) eqn:Eb; cbn [negb].
    + destruct (bool_decide _); [|apply Hb].
      destruct (decide (k = sid)) as [->|Hk].
      * rewrite lookup_insert_eq. intros [= <-]. lia.
      * rewrite lookup_insert_ne by congruence. apply Hb.
    + destruct Hc as [Hc|Hc]; [discriminate|].
      destruct (decide (k = sid)) as [->|Hk].
      * rewrite lookup_insert_eq. intros [= <-]. lia.
      * rewrite lookup_insert_ne by congruence. apply Hb.
Qed.

(** [process_chat_message] answers ['redirect_to_business'] exactly when
    the message has no inappropriate keyword, is not business related, and
    the off-topic counter of its session was already at least 2 (absent
    counts as 0); the counter of the session is then reset to 0. *)
Theorem redirect_to_business_iff (lower : string -> string)
    (re_split_vendor : string -> list string)
    (find_products : string -> option string -> nat)
    (lookup_user : Z -> option string)
    (message : string) (user : option string) (user_id : option Z) (st : ChatState) :
  let sid := chat_sid lower lookup_user message user user_id in
  let res := process_chat_message lower re_split_vendor find_products lookup_user
               message user user_id st in
  (intent (fst res) = "redirect_to_business" <->
   check_inappropriate_content lower message = None /\
   is_business_related lower message = false /\
   2 <= match off_topic_count st !! sid with Some n => n | None => 0 end) /\
  (intent (fst res) = "redirect_to_business" -> off_topic_count (snd res) !! sid = Some 0).
Proof.
  pose proof (process_chat_message_shape lower re_split_vendor find_products lookup_user
                message user user_id st) as Hs.
  cbv zeta in Hs |- *.
  destruct Hs as (c & i & otc' & He & _ & Hcase). rewrite He. cbn [fst snd intent off_topic_count].
  set (sid := chat_sid lower lookup_user message user user_id) in *.
  destruct Hcase as [(Hi & -> & ->) | [(Hi & Hb & Hc & -> & ->) | (Hi & Hc & Hne & ->)]].
  - split; [|discriminate]. split; [discriminate|]. intros (H & _). contradiction.
  - split; [split; [intros _; repeat split; auto; lia | reflexivity]|].
    intros _. apply lookup_insert_eq.
  - split; [|intros H; contradiction]. split; [intros H; contradiction|].
    intros (_ & Hb & H2). rewrite Hb in Hc. destruct Hc as [Hc|Hc]; [discriminate|lia].
Qed.

Definition chat_state_example : ChatState := mkChatState ∅ {[ "guest_en" := 2 ]}.

Lemma chat_state_example_bounded :
  forall k n, off_topic_count chat_state_example !! k = Some n -> 0 <= n <= 2.
Proof.
  intros k n H. cbn [off_topic_count chat_state_example] in H.
  apply lookup_singleton_Some in H as [_ <-]. lia.
Qed.

Lemma off_topic_count_bounded_witness :
  (forall k n, off_topic_count chat_state_example !! k = Some n -> 0 <= n <= 2) /\
  forall k n,
    off_topic_count (snd (process_chat_message ascii_lower (fun _ => []) (fun _ _ => 0%nat)
                            (fun _ => None) "tell me a joke" None None
                            chat_state_example)) !! k = Some n ->
    0 <= n <= 2.
Proof.
  split; [exact chat_state_example_bounded|].
  exact (off_topic_count_bounded ascii_lower (fun _ => []) (fun _ _ => 0%nat)
           (fun _ => None) "tell me a joke" None None chat_state_example
           chat_state_example_bounded).
Defined.

End ChatStateFacts.

Module RankingFacts.
Import Py PyStr Ranking.
Local Open Scope Z_scope.

Section Generic.
Context {A : Type} (key : A -> Z).

Definition desc (a b : A) : Prop := key b <= key a.

Definition with_key (s : Z) (l : list A) : list A :=
  List.filter (fun y => key y =? s) l.

Lemma insert_desc_perm (x : A) (l : list A) :
  Permutation (insert_desc key x l) (x :: l).
Proof.
  induction l as [|y l IH]; simpl; [reflexivity|].
  destruct (key y <=? key x); [reflexivity|].
  rewrite IH. apply perm_swap.
Qed.

Lemma sort_desc_perm (l : list A) : Permutation (sort_desc key l) l.
Proof.
  induction l as [|x l IH]; simpl; [reflexivity|].
  rewrite insert_desc_perm, IH. reflexivity.
Qed.

Lemma insert_desc_sorted (x : A) (l : list A) :
  Sorted desc l -> Sorted desc (insert_desc key x l).
Proof.
  induction 1 as [|y l Hs IH Hhd]; simpl.
  - repeat constructor.
  - destruct (Z.leb_spec (key y) (key x)) as [Hle|Hlt].
    + constructor; [constructor; assumption|]. constructor. exact Hle.
    + constructor; [exact IH|].
      destruct l as [|z l]; simpl.
      * constructor. unfold desc. lia.
      * destruct (key z <=? key x); constructor; unfold desc; [lia|].
        inversion Hhd; assumption.
Qed.

Lemma sort_desc_sorted (l : list A) : Sorted desc (sort_desc key l).
Proof.
  induction l as [|x l IH]; simpl; [constructor|]. apply insert_desc_sorted, IH.
Qed.

Lemma with_key_insert (s : Z) (x : A) (l : list A) :
  with_key s (insert_desc key x l) = with_key s (x :: l).
Proof.
  unfold with_key. induction l as [|y l IH]; simpl; [reflexivity|].
  destruct (Z.leb_spec (key y) (key x)) as [Hle|Hlt]; [reflexivity|].
  simpl. rewrite IH. simpl.
  destruct (Z.eqb_spec (key x) s), (Z.eqb_spec (key y) s); try reflexivity; lia.
Qed.

Lemma with_key_sort (s : Z) (l : list A) :
  with_key s (sort_desc key l) = with_key s l.
Proof.
  induction l as [|x l IH]; [reflexivity|]. simpl sort_desc.
  rewrite with_key_insert. unfold with_key in *. simpl. rewrite IH. reflexivity.
Qed.

Lemma sorted_head_max (x : A) (l : list A) :
  Sorted desc (x :: l) -> Forall (fun y => key y <= key x) l.
Proof.
  intros Hs. apply Sorted_StronglySorted in Hs.
  - inversion Hs as [|? ? _ Hf]; subst. eapply Forall_impl; [exact Hf|].
    intros y Hy. exact Hy.
  - intros a b c Hab Hbc. unfold desc in *. lia.
Qed.

Lemma with_key_below (s : Z) (l : list A) :
  Forall (fun y => key y < s) l -> with_key s l = [].
Proof.
  unfold with_key. induction 1 as [|y l Hy _ IH]; simpl; [reflexivity|].
  destruct (Z.eqb_spec (key y) s); [lia | exact IH].
Qed.

Lemma with_key_head_neq (s : Z) (x : A) (l : list A) :
  key x <> s -> with_key s (x :: l) = with_key s l.
Proof. intros H. unfold with_key. simpl. destruct (Z.eqb_spec (key x) s); [lia | reflexivity]. Qed.

Lemma with_key_head_eq (x : A) (l : list A) :
  with_key (key x) (x :: l) = x :: with_key (key x) l.
Proof. unfold with_key. simpl. rewrite Z.eqb_refl. reflexivity. Qed.

Lemma head_key_le (x y : A) (r1 r2 : list A) :
  Sorted desc (x :: r1) ->
  (forall s, with_key s (x :: r1) = with_key s (y :: r2)) ->
  key y <= key x.
Proof.
  intros Hs1 Hf. destruct (Z.le_gt_cases (key y) (key x)) as [Hle|Hgt]; [exact Hle|].
  exfalso. specialize (Hf (key y)). rewrite with_key_head_eq in Hf.
  rewrite with_key_head_neq in Hf by lia.
  rewrite with_key_below in Hf; [discriminate|].
  eapply Forall_impl; [exact (sorted_head_max x r1 Hs1)|]. intros z Hz. simpl in Hz. lia.
Qed.

(** Two lists sorted on decreasing keys that hold, for each key, the same
    items in the same order are equal. *)
Lemma stable_sorted_unique (l1 l2 : list A) :
  Sorted desc l1 -> Sorted desc l2 ->
  (forall s, with_key s l1 = with_key s l2) -> l1 = l2.
Proof.
  revert l2. induction l1 as [|x r1 IH]; intros l2 Hs1 Hs2 Hf.
  - destruct l2 as [|y r2]; [reflexivity|].
    specialize (Hf (key y)). rewrite with_key_head_eq in Hf. discriminate.
  - destruct l2 as [|y r2].
    + specialize (Hf (key x)). rewrite with_key_head_eq in Hf. discriminate.
    + assert (Hyx : key y <= key x) by exact (head_key_le x y r1 r2 Hs1 Hf).
      assert (Hxy : key x <= key y).
      { apply (head_key_le y x r2 r1 Hs2). intros s. symmetry. apply Hf. }
      assert (Hk : key x = key y) by lia.
      pose proof (Hf (key x)) as Hx. rewrite with_key_head_eq in Hx.
      rewrite Hk, with_key_head_eq in Hx. injection Hx as <- _.
      f_equal. apply IH.
      * inversion Hs1; assumption.
      * inversion Hs2; assumption.
      * intros s. destruct (Z.eq_dec (key x) s) as [<-|Hne].
        -- specialize (Hf (key x)). rewrite !with_key_head_eq in Hf.
           injection Hf as Hf. exact Hf.
        -- specialize (Hf s). rewrite !with_key_head_neq in Hf by exact Hne. exact Hf.
Qed.

End Generic.

Lemma sort_desc_scored {B} (f : B -> Z) (l : list B) :
  sort_desc snd (map (fun p => (p, f p)) l) = map (fun p => (p, f p)) (sort_desc f l).
Proof.
  induction l as [|x l IH]; simpl; [reflexivity|]. rewrite IH.
  generalize (sort_desc f l) as m. intros m.
  induction m as [|y m IHm]; simpl; [reflexivity|].
  destruct (f y <=? f x); simpl; [reflexivity|]. rewrite IHm. reflexivity.
Qed.

Lemma rank_products_sort (lower : string -> string) (products : list ListedProduct)
    (keywords : list string) :
  rank_products lower products keywords = sort_desc (rank_score lower keywords) products.
Proof.
  unfold rank_products. rewrite sort_desc_scored, map_map. simpl. apply map_id.
Qed.

(** [_rank_products] returns the products it is given, each once, in
    decreasing order of score (3 per keyword found in the lower-cased name,
    1 per keyword found in the lower-cased description), and products with
    equal scores keep the order they had. *)
Theorem rank_products_stable_sort (lower : string -> string)
    (products : list ListedProduct) (keywords : list string) :
  let out := rank_products lower products keywords in
  let score := rank_score lower keywords in
  Permutation out products /\
  Sorted (fun a b => score b <= score a) out /\
  (forall s, List.filter (fun p => score p =? s) out =
             List.filter (fun p => score p =? s) products).
Proof.
  cbv zeta. rewrite rank_products_sort.
  split; [apply sort_desc_perm|]. split; [apply sort_desc_sorted|].
  intros s. apply with_key_sort.
Qed.

(** The order [_rank_products] returns is the only one with these
    properties: any list sorted on decreasing scores that holds, for each
    score, the products of that score in their input order is its output.
    So the result does not depend on the sorting algorithm, only on its
    stability. *)
Theorem rank_products_unique (lower : string -> string)
    (products : list ListedProduct) (keywords : list string) (out : list ListedProduct) :
  Sorted (fun a b => rank_score lower keywords b <= rank_score lower keywords a) out ->
  (forall s, List.filter (fun p => rank_score lower keywords p =? s) out =
             List.filter (fun p => rank_score lower keywords p =? s) products) ->
  out = rank_products lower products keywords.
Proof.
  intros Hs Hf. rewrite rank_products_sort.
  apply (stable_sorted_unique (rank_score lower keywords)).
  - exact Hs.
  - apply sort_desc_sorted.
  - intros s. rewrite (with_key_sort (rank_score lower keywords) s products).
    exact (Hf s).
Qed.

Definition phone_case : ListedProduct := mkListedProduct "Phone case" None.
Definition laptop : ListedProduct := mkListedProduct "Laptop" (Some "With a PHONE stand").
Definition phone : ListedProduct := mkListedProduct "Phone" (Some "").
Definition wish_keywords : list string := ["phone"; "case"].

Lemma rank_products_unique_witness :
  (Sorted (fun a b => rank_score ascii_lower wish_keywords b <=
                      rank_score ascii_lower wish_keywords a) [phone_case; phone; laptop] /\
   (forall s, List.filter (fun p => rank_score ascii_lower wish_keywords p =? s)
                [phone_case; phone; laptop] =
              List.filter (fun p => rank_score ascii_lower wish_keywords p =? s)
                [laptop; phone_case; phone])) /\
  [phone_case; phone; laptop] = rank_products ascii_lower [laptop; phone_case; phone] wish_keywords.
Proof.
  assert (E1 : rank_score ascii_lower wish_keywords phone_case = 6) by (vm_compute; reflexivity).
  assert (E2 : rank_score ascii_lower wish_keywords phone = 3) by (vm_compute; reflexivity).
  assert (E3 : rank_score ascii_lower wish_keywords laptop = 1) by (vm_compute; reflexivity).
  assert (Hs : Sorted (fun a b => rank_score ascii_lower wish_keywords b <=
                                  rank_score ascii_lower wish_keywords a)
                 [phone_case; phone; laptop]).
  { repeat constructor; rewrite ?E1, ?E2, ?E3; lia. }
  assert (Hf : forall s, List.filter (fun p => rank_score ascii_lower wish_keywords p =? s)
                           [phone_case; phone; laptop] =
                         List.filter (fun p => rank_score ascii_lower wish_keywords p =? s)
                           [laptop; phone_case; phone]).
  { intros s. cbn [List.filter]. rewrite E1, E2, E3.
    destruct (Z.eqb_spec 6 s), (Z.eqb_spec 3 s), (Z.eqb_spec 1 s);
      try reflexivity; lia. }
  split; [split; [exact Hs | exact Hf] |].
  exact (rank_products_unique ascii_lower [laptop; phone_case; phone] wish_keywords
           [phone_case; phone; laptop] Hs Hf).
Defined.

End RankingFacts.
